(** * pycvoa: the Solution value store and its control layer

    A shallow embedding of
      - [pycvoa/problem/solution.py]       (class [Solution]),
      - [pycvoa/problem/ctrl/solution.py]  (module [ctrl_sol]),
      - [pycvoa/problem/ctrl/domain.py]    (the module that [solution.py]
        imports under the name [ctrl_dom]) and [pycvoa/control/domain.py]
        (the later generation of the same checks),
      - [pycvoa/definition.py]             (class [ProblemDefinition]),
    together with the properties of the value store that the design
    document states about them.

    Python objects are mutated in place and an exception leaves every
    mutation done before it: a method is therefore a function from the store
    to the store after the call paired with either the returned value or the
    raised exception. *)

From Stdlib Require Import ZArith QArith Bool Lia.
From stdpp Require Import base option list gmap strings.

Local Open Scope Z_scope.

(** ** Python values, exceptions and results *)

(** The exception classes the modelled code raises itself ([DomainError],
    [DefinitionError], [SolutionError], [ValueError], [AssertionError]) and
    the ones the interpreter raises on its behalf. *)
Inductive exn : Type :=
  | DomainError
  | DefinitionError
  | SolutionError
  | ValueError
  | AssertionError
  | IndexError
  | TypeError
  | UnboundLocalError
  | AttributeError
  | OverflowError
  | KeyError.

Inductive result (A : Type) : Type :=
  | Ok (a : A)
  | Raise (e : exn).
Arguments Ok {A} a.
Arguments Raise {A} e.

Definition rbind {A B} (r : result A) (f : A -> result B) : result B :=
  match r with
  | Ok a => f a
  | Raise e => Raise e
  end.

(** A method over a mutable object of type [S]: the object after the call
    and the outcome.  A raised exception keeps the writes made so far. *)
Definition M (S A : Type) : Type := S -> S * result A.

Definition ret {S A} (a : A) : M S A := fun s => (s, Ok a).
Definition raise {S A} (e : exn) : M S A := fun s => (s, Raise e).
Definition lift {S A} (r : result A) : M S A := fun s => (s, r).
Definition get {S} : M S S := fun s => (s, Ok s).
Definition put {S} (s' : S) : M S unit := fun _ => (s', Ok tt).
Definition bind {S A B} (m : M S A) (f : A -> M S B) : M S B :=
  fun s =>
    match m s with
    | (s', Ok a) => f a s'
    | (s', Raise e) => (s', Raise e)
    end.

Declare Scope py_scope.
Delimit Scope py_scope with py.
Notation "x <- c1 ;; c2" := (bind c1 (fun x => c2))
  (at level 100, c1 at next level, right associativity) : py_scope.
Notation "c1 ;; c2" := (bind c1 (fun _ => c2))
  (at level 100, right associativity) : py_scope.
Notation "x <~ c1 ;; c2" := (rbind c1 (fun x => c2))
  (at level 100, c1 at next level, right associativity) : py_scope.
Notation "c1 ~;; c2" := (rbind c1 (fun _ => c2))
  (at level 100, right associativity) : py_scope.
Local Open Scope py_scope.

(** [int], [float] and [str]: the three primitive kinds of a BASIC value.
    A float is kept as the rational it denotes. *)
Inductive Basic : Type :=
  | PyInt (z : Z)
  | PyFloat (q : Q)
  | PyStr (s : string).

(** Python's [==] on primitive values: numbers compare by value across
    [int] and [float], a string equals only the same string. *)
Definition basic_eqb (a b : Basic) : bool :=
  match a, b with
  | PyInt x, PyInt y => x =? y
  | PyInt x, PyFloat q => Qeq_bool (inject_Z x) q
  | PyFloat q, PyInt y => Qeq_bool q (inject_Z y)
  | PyFloat p, PyFloat q => Qeq_bool p q
  | PyStr s, PyStr t => String.eqb s t
  | _, _ => false
  end.

(** ** Python containers *)

(** A [dict] with string keys: an association list in insertion order, a
    key occurring at most once. *)
Section PyDict.
Context {V : Type}.

Definition pydict : Type := list (string * V).

Fixpoint dict_get (k : string) (d : pydict) : option V :=
  match d with
  | [] => None
  | (k', v) :: d' => if String.eqb k' k then Some v else dict_get k d'
  end.

(** [d[k] = v]: replaces in place, a new key goes last. *)
Fixpoint dict_set (k : string) (v : V) (d : pydict) : pydict :=
  match d with
  | [] => [(k, v)]
  | (k', v') :: d' =>
      if String.eqb k' k then (k', v) :: d' else (k', v') :: dict_set k v d'
  end.

(** [k in d.keys()] *)
Definition dict_mem (k : string) (d : pydict) : bool :=
  match dict_get k d with Some _ => true | None => false end.

(** [list(d.keys())] *)
Definition dict_keys (d : pydict) : list string := map fst d.
End PyDict.
Arguments pydict V : clear implicits.

(** [len(l)] *)
Definition len {A} (l : list A) : Z := Z.of_nat (length l).

(** A Python index into a sequence of length [n]: a negative index counts
    from the end; [None] is Python's [IndexError]. *)
Definition py_pos (n i : Z) : option nat :=
  let j := if i <? 0 then n + i else i in
  if (j <? 0) || (n <=? j) then None else Some (Z.to_nat j).

(** [l[i]] *)
Definition py_getitem {A} (l : list A) (i : Z) : result A :=
  match py_pos (len l) i with
  | Some j => match l !! j with Some x => Ok x | None => Raise IndexError end
  | None => Raise IndexError
  end.

(** [l[i] = x] *)
Definition py_setitem {A} (l : list A) (i : Z) (x : A) : result (list A) :=
  match py_pos (len l) i with
  | Some j => Ok (<[j := x]> l)
  | None => Raise IndexError
  end.

(** [del l[i]] *)
Definition py_delitem {A} (l : list A) (i : Z) : result (list A) :=
  match py_pos (len l) i with
  | Some j => Ok (take j l ++ drop (S j) l)
  | None => Raise IndexError
  end.

(** [l.append(x)] *)
Definition py_append {A} (l : list A) (x : A) : list A := l ++ [x].

(** [l.insert(i, x)]: an index that fits the interpreter's [Py_ssize_t]
    (64 bits) is clamped to the list; one that does not raises
    [OverflowError]. *)
Definition py_insert {A} (l : list A) (i : Z) (x : A) : result (list A) :=
  if (i <? - 2 ^ 63) || (2 ^ 63 <=? i) then Raise OverflowError
  else
    let n := len l in
    let j := Z.to_nat (if i <? 0 then Z.max 0 (n + i) else Z.min i n) in
    Ok (take j l ++ x :: drop j l).

(** [l.pop()]: the list without its last item; empty: [IndexError]. *)
Definition py_pop {A} (l : list A) : result (list A) :=
  match l with
  | [] => Raise IndexError
  | _ => Ok (removelast l)
  end.

(** What a variable of the store holds: a BASIC value, a LAYER (a [dict]
    from element names to values) or a VECTOR (a [list]).  Python does not
    type the store, so the shapes nest freely. *)
#[warnings="-register-all"]
Inductive Value : Type :=
  | VBasic (b : Basic)
  | VDict (d : list (string * Value))
  | VList (l : list Value).

(** The typed arguments of the interface ([pycvoa.control.types]). *)
Definition SolLayer : Type := pydict Basic.
Definition BasicValueList : Type := list Basic.
Definition LayerVectorValue : Type := list SolLayer.

Definition of_layer (layer : SolLayer) : Value :=
  VDict (map (fun kv => (fst kv, VBasic (snd kv))) layer).
Definition of_basic_vector (values : BasicValueList) : Value :=
  VList (map VBasic values).
Definition of_layer_vector (values : LayerVectorValue) : Value :=
  VList (map of_layer values).

(** [copy.deepcopy(x)]: among values the copy is the value; the name
    marks the writes that store a copy and, by its absence, those that
    store the caller's object. *)
Definition deepcopy {A : Type} (x : A) : A := x.

(** Python's [==] on stored values: lists item by item, dicts as finite
    maps whatever the insertion order. *)
Fixpoint value_eqb (a b : Value) : bool :=
  match a, b with
  | VBasic x, VBasic y => basic_eqb x y
  | VList l1, VList l2 =>
      (fix items (l1 l2 : list Value) : bool :=
         match l1, l2 with
         | [], [] => true
         | x :: xs, y :: ys => value_eqb x y && items xs ys
         | _, _ => false
         end) l1 l2
  | VDict d1, VDict d2 =>
      Nat.eqb (length d1) (length d2)
      && (fix entries (d : list (string * Value)) : bool :=
            match d with
            | [] => true
            | (k, v) :: d' =>
                match dict_get k d2 with
                | Some v' => value_eqb v v'
                | None => false
                end && entries d'
            end) d1
  | _, _ => false
  end.

(** [len(x)] for what [dict.get] returned: [None] and numbers have no
    length. *)
Definition py_len (x : option Value) : result Z :=
  match x with
  | Some (VList l) => Ok (len l)
  | Some (VDict d) => Ok (len d)
  | Some (VBasic (PyStr s)) => Ok (Z.of_nat (String.length s))
  | Some (VBasic _) | None => Raise TypeError
  end.

(** The object is used as a [list] ([x.append], [x[i]], [x.pop]).  The
    interpreter's complaint about an object of another shape is rendered as
    [TypeError] whichever class it has in Python; where Python would go on
    with such an object (a [str] can be indexed, a [dict] takes an integer
    key) the model stops with [TypeError] as well. *)
Definition as_list (x : option Value) : result (list Value) :=
  match x with
  | Some (VList l) => Ok l
  | _ => Raise TypeError
  end.

(** The object is used as a [dict] ([x.keys()], [x[element] = value]). *)
Definition as_dict (x : Value) : result (pydict Value) :=
  match x with
  | VDict d => Ok d
  | _ => Raise TypeError
  end.

(** An argument passed where the callee expects an element name: Python
    lets the caller pass any object. *)
Inductive PyArg : Type :=
  | ArgStr (s : string)
  | ArgDict (d : pydict Value).

(** ** The Domain registry

    [pycvoa/problem/domain.py] and the type tags of
    [pycvoa/control/types.py] are not part of the sources at hand; the
    module below follows the design document. *)
Module Domain.

(** Modelled from the spec: the type tags of [pycvoa.control.types], with
    the groups [BASICS] and [NUMERICALS] that [__check_component_type]
    tests membership in. *)
Inductive PYCVOA_TYPE : Type :=
  | INTEGER | REAL | CATEGORICAL | LAYER | VECTOR | BASIC | NUMERICAL.

#[global] Instance PYCVOA_TYPE_eq_dec : EqDecision PYCVOA_TYPE.
Proof. solve_decision. Defined.

Definition BASICS : list PYCVOA_TYPE := [INTEGER; REAL; CATEGORICAL].
Definition NUMERICALS : list PYCVOA_TYPE := [INTEGER; REAL].

(** Modelled from the spec: the Variable Definition of section 3, a closed
    set of variants two levels deep. *)
Inductive BasicDef : Type :=
  | IntegerDef (min_value max_value : Z) (step : option Z)
  | RealDef (min_value max_value : Q) (step : option Q)
  | CategoricalDef (categories : list Basic).

(** Modelled from the spec: the component type of a vector, declared once
    after the vector itself: a scalar variant or a layer shape
    ([Domain.define_components_as_*] of the missing [domain.py]). *)
Inductive ComponentDef : Type :=
  | UndefinedComponents
  | BasicComponents (definition : BasicDef)
  | LayerComponents (elements : gmap string BasicDef).

(** Modelled from the spec: the three categories of a variable, BASIC,
    LAYER and VECTOR, the last with its size bounds. *)
Inductive VarDef : Type :=
  | BasicVar (definition : BasicDef)
  | LayerVar (elements : gmap string BasicDef)
  | VectorVar (min_size max_size : Z) (step_size : option Z)
              (components : ComponentDef).

(** Modelled from the spec: class [Domain] of the missing
    [pycvoa/problem/domain.py], a mapping from variable names to Variable
    Definitions. *)
Record t : Type := { definitions : gmap string VarDef }.

(** Modelled from the spec: the type tag of a scalar variant, as
    [Domain.get_variable_type] reports it. *)
Definition basic_type (d : BasicDef) : PYCVOA_TYPE :=
  match d with
  | IntegerDef _ _ _ => INTEGER
  | RealDef _ _ _ => REAL
  | CategoricalDef _ => CATEGORICAL
  end.

(** Modelled from the spec: two values of the same primitive type. *)
Definition same_kind (a b : Basic) : bool :=
  match a, b with
  | PyInt _, PyInt _ | PyFloat _, PyFloat _ | PyStr _, PyStr _ => true
  | _, _ => false
  end.

(** Modelled from the spec: the scalar check of section 4.2.  The kind of
    the value must match the declared variant; INTEGER and REAL require
    [min <= value <= max], CATEGORICAL requires membership in the labels,
    which share one primitive type. *)
Definition check_scalar (d : BasicDef) (value : Basic) : bool :=
  match d, value with
  | IntegerDef lo hi _, PyInt z => (lo <=? z) && (z <=? hi)
  | RealDef lo hi _, PyFloat q => Qle_bool lo q && Qle_bool q hi
  | CategoricalDef labels, _ =>
      forallb (same_kind value) labels && existsb (basic_eqb value) labels
  | _, _ => false
  end.

(** Modelled from the spec: [Domain.get_variable_type].  The
    definition-level checks come first and raise a definition error for a
    name that is not declared, or declared under another category; only then
    is a value checked. *)
Definition get_variable_type (self : t) (variable : string)
  : result PYCVOA_TYPE :=
  match definitions self !! variable with
  | Some (BasicVar d) => Ok (basic_type d)
  | Some (LayerVar _) => Ok LAYER
  | Some (VectorVar _ _ _ _) => Ok VECTOR
  | None => Raise DefinitionError
  end.

(** Modelled from the spec: [Domain.get_vector_components_type], a
    definition error unless the name is a vector whose component type has
    been set. *)
Definition get_vector_components_type (self : t) (vector_variable : string)
  : result PYCVOA_TYPE :=
  match definitions self !! vector_variable with
  | Some (VectorVar _ _ _ (BasicComponents d)) => Ok (basic_type d)
  | Some (VectorVar _ _ _ (LayerComponents _)) => Ok LAYER
  | _ => Raise DefinitionError
  end.

(** Modelled from the spec: [Domain.is_defined_element], membership of the
    element name among the declared elements of the layer.  An object that
    is not hashable cannot be looked up among the names: [TypeError]. *)
Definition is_defined_element (self : t) (layer_variable : string)
    (element : PyArg) : result bool :=
  match definitions self !! layer_variable with
  | Some (LayerVar elements) =>
      match element with
      | ArgStr element => Ok (bool_decide (is_Some (elements !! element)))
      | ArgDict _ => Raise TypeError
      end
  | _ => Raise DefinitionError
  end.

(** Modelled from the spec: [Domain.check_basic], the scalar check of a
    variable declared as BASIC. *)
Definition check_basic (self : t) (basic_variable : string) (value : Basic)
  : result bool :=
  match definitions self !! basic_variable with
  | Some (BasicVar d) => Ok (check_scalar d value)
  | _ => Raise DefinitionError
  end.

(** Modelled from the spec: [Domain.check_element], the layer element
    check of section 4.2: it resolves the element's own definition and
    rejects an element name that the layer does not declare. *)
Definition check_element (self : t) (layer_variable element : string)
    (value : Basic) : result bool :=
  match definitions self !! layer_variable with
  | Some (LayerVar elements) =>
      match elements !! element with
      | Some d => Ok (check_scalar d value)
      | None => Raise DefinitionError
      end
  | _ => Raise DefinitionError
  end.

(** Modelled from the spec: [Domain.check_vector_basic_value], the check of
    a scalar-typed vector element: it rejects a vector whose component type
    is not scalar. *)
Definition check_vector_basic_value (self : t) (vector_variable : string)
    (value : Basic) : result bool :=
  match definitions self !! vector_variable with
  | Some (VectorVar _ _ _ (BasicComponents d)) => Ok (check_scalar d value)
  | _ => Raise DefinitionError
  end.

(** Modelled from the spec: [Domain.check_vector_layer_element_value], the
    check of one element of a layer-typed vector component. *)
Definition check_vector_layer_element_value (self : t)
    (layer_vector_variable element : string) (value : Basic) : result bool :=
  match definitions self !! layer_vector_variable with
  | Some (VectorVar _ _ _ (LayerComponents elements)) =>
      match elements !! element with
      | Some d => Ok (check_scalar d value)
      | None => Raise DefinitionError
      end
  | _ => Raise DefinitionError
  end.

(** Modelled from the spec: [Domain.check_vector_values_size]; the bulk
    checks compare the size of the list with the size window of the registry
    before any element. *)
Definition check_vector_values_size {A} (self : t) (vector_variable : string)
    (values : list A) : result bool :=
  match definitions self !! vector_variable with
  | Some (VectorVar min_size max_size _ _) =>
      Ok ((min_size <=? len values) && (len values <=? max_size))
  | _ => Raise DefinitionError
  end.

(** Modelled from the spec: [Domain.check_vector_basic_values], the bulk
    check of a scalar vector: the size window, then every element. *)
Definition check_vector_basic_values (self : t) (vector_variable : string)
    (values : BasicValueList) : result bool :=
  match definitions self !! vector_variable with
  | Some (VectorVar min_size max_size _ (BasicComponents d)) =>
      Ok ((min_size <=? len values) && (len values <=? max_size)
          && forallb (check_scalar d) values)
  | _ => Raise DefinitionError
  end.

(** Modelled from the spec: [Domain.get_remaining_available_basic_components],
    section 4.3: the remaining slots of a scalar or complete-shaped vector,
    [max_size - current_length]. *)
Definition get_remaining_available_basic_components (self : t)
    (vector_variable : string) (current_vector_size : Z) : result Z :=
  match definitions self !! vector_variable with
  | Some (VectorVar _ max_size _ _) => Ok (max_size - current_vector_size)
  | _ => Raise DefinitionError
  end.

(** Modelled from the spec: [Domain.get_remaining_available_complete_components],
    the same count for a vector whose components are complete. *)
Definition get_remaining_available_complete_components (self : t)
    (vector_variable : string) (current_vector_size : Z) : result Z :=
  match definitions self !! vector_variable with
  | Some (VectorVar _ max_size _ _) => Ok (max_size - current_vector_size)
  | _ => Raise DefinitionError
  end.

(** Modelled from the spec: [Domain.get_remaining_available_layer_components],
    section 4.3, the remaining slots accounting for layer completeness:
    zero while the last component holds fewer elements than the layer
    declares, [max_size - current_length] otherwise. *)
Definition get_remaining_available_layer_components (self : t)
    (layer_vector_variable : string) (current_vector_size : Z)
    (last_layer : pydict Value) : result Z :=
  match definitions self !! layer_vector_variable with
  | Some (VectorVar _ max_size _ (LayerComponents elements)) =>
      if len last_layer <? Z.of_nat (size elements) then Ok 0
      else Ok (max_size - current_vector_size)
  | _ => Raise DefinitionError
  end.

(** Modelled from the spec: [Domain.is_defined_variable], the query "is
    variable defined" of section 4.1. *)
Definition is_defined_variable (self : t) (variable : string) : bool :=
  bool_decide (is_Some (definitions self !! variable)).

(** Modelled from the spec: [Domain.are_defined_components], the query "are
    vector components defined" of section 4.1, false until a component type
    has been set. *)
Definition are_defined_components (self : t) (vector_variable : string)
  : result bool :=
  match definitions self !! vector_variable with
  | Some (VectorVar _ _ _ UndefinedComponents) => Ok false
  | Some (VectorVar _ _ _ _) => Ok true
  | _ => Raise DefinitionError
  end.

End Domain.

Abbreviation OptDomain := (option Domain.t).

(** ** [pycvoa/control/domain.py]: the later generation of the checks

    This file defines [check_basic_value], [check_basic_vector_value],
    [check_layer_vector_element] and the like, the names [Solution] calls;
    [solution.py] however imports [pycvoa/problem/ctrl/domain.py] (the
    module [problem_ctrl_dom] below) under the name [ctrl_dom], and nothing
    of this file. *)
Module ctrl_dom.
Import Domain.

(** Modelled from the spec: [pycvoa.control.common.check_item_type], which
    is not part of the sources at hand; it follows the three-way test of
    [__check_component_type] below. *)
Definition check_item_type (check_type item_type : PYCVOA_TYPE) : bool :=
  match check_type with
  | BASIC => bool_decide (item_type ∈ BASICS)
  | NUMERICAL => bool_decide (item_type ∈ NUMERICALS)
  | _ => bool_decide (item_type = check_type)
  end.

Definition get_valid_domain (external_domain internal_domain : OptDomain)
  : result Domain.t :=
  let current_domain := external_domain in
  let current_domain :=
    match current_domain with
    | None => internal_domain
    | Some _ => current_domain
    end in
  match current_domain with
  | None => Raise DomainError
  | Some current_domain => Ok current_domain
  end.

(** *** BASIC *)


(** *** LAYER *)

(** [for element, value in layer.items(): if not check(...): raise] *)
Fixpoint for_items (check : string -> Basic -> result bool) (e : exn)
    (items : SolLayer) : result unit :=
  match items with
  | [] => Ok tt
  | (element, value) :: items' =>
      ok <~ check element value ;;
      if negb ok then Raise e else for_items check e items'
  end.

Definition check_layer_value (layer_variable : string) (layer_value : SolLayer)
    (external_domain internal_domain : OptDomain) : result unit :=
  valid_domain <~ get_valid_domain external_domain internal_domain ;;
  for_items (check_element valid_domain layer_variable) DomainError layer_value.

Definition check_layer_element_value (layer_variable element : string)
    (value : Basic) (external_domain internal_domain : OptDomain)
  : result unit :=
  valid_domain <~ get_valid_domain external_domain internal_domain ;;
  ok <~ check_element valid_domain layer_variable element value ;;
  if negb ok then Raise DomainError else Ok tt.

(** *** BASIC VECTOR *)

Definition check_basic_vector_values (check_basic_vector_variable : string)
    (value_list : BasicValueList) (external_domain internal_domain : OptDomain)
  : result unit :=
  valid_domain <~ get_valid_domain external_domain internal_domain ;;
  ok <~ check_vector_basic_values valid_domain check_basic_vector_variable
          value_list ;;
  if negb ok then Raise DomainError else Ok tt.


(** *** LAYER VECTOR *)

Definition __list_size {A} (vector_variable : string) (values : list A)
    (domain : Domain.t) : result unit :=
  ok <~ check_vector_values_size domain vector_variable values ;;
  if negb ok then Raise DomainError else Ok tt.

(** The assertion [type(layer) is SolLayer] of the outer loop holds of
    every typed [layer]. *)
Fixpoint for_layers (check : string -> Basic -> result bool)
    (value_list : LayerVectorValue) : result unit :=
  match value_list with
  | [] => Ok tt
  | layer :: value_list' =>
      for_items check DomainError layer ~;; for_layers check value_list'
  end.

Definition check_layer_vector_values (layer_vector_variable : string)
    (value_list : LayerVectorValue)
    (external_domain internal_domain : OptDomain) : result unit :=
  valid_domain <~ get_valid_domain external_domain internal_domain ;;
  __list_size layer_vector_variable value_list valid_domain ~;;
  for_layers
    (check_vector_layer_element_value valid_domain layer_vector_variable)
    value_list.

Definition check_layer_vector_component (layer_vector_variable : string)
    (layer_values : SolLayer) (external_domain internal_domain : OptDomain)
  : result Domain.t :=
  valid_domain <~ get_valid_domain external_domain internal_domain ;;
  for_items
    (check_vector_layer_element_value valid_domain layer_vector_variable)
    DomainError layer_values ~;;
  Ok valid_domain.

(** *** GENERAL *)

Definition check_layer_vector_element (layer_vector_variable element : string)
    (value : Basic) (external_domain internal_domain : OptDomain)
  : result Domain.t :=
  valid_domain <~ get_valid_domain external_domain internal_domain ;;
  ok <~ check_vector_layer_element_value valid_domain layer_vector_variable
          element value ;;
  if negb ok then Raise ValueError else Ok valid_domain.

Definition basic_variable (check_basic_variable : string)
    (external_domain internal_domain : OptDomain) : result Domain.t :=
  valid_domain <~ get_valid_domain external_domain internal_domain ;;
  var_type <~ get_variable_type valid_domain check_basic_variable ;;
  if negb (check_item_type BASIC var_type) then Raise DefinitionError
  else Ok valid_domain.

Definition layer_variable_element (check_layer_variable : string)
    (element : PyArg) (external_domain internal_domain : OptDomain)
  : result Domain.t :=
  valid_domain <~ get_valid_domain external_domain internal_domain ;;
  var_type <~ get_variable_type valid_domain check_layer_variable ;;
  if negb (check_item_type LAYER var_type) then Raise DefinitionError
  else
    defined <~ is_defined_element valid_domain check_layer_variable element ;;
    if negb defined then Raise DefinitionError else Ok valid_domain.

Definition __check_component_type (check_vector_variable : string)
    (check_type : PYCVOA_TYPE) (domain : Domain.t) : result unit :=
  comp_type <~ get_vector_components_type domain check_vector_variable ;;
  match check_type with
  | BASIC =>
      if negb (bool_decide (comp_type ∈ BASICS)) then Raise ValueError
      else Ok tt
  | NUMERICAL =>
      if negb (bool_decide (comp_type ∈ NUMERICALS)) then Raise ValueError
      else Ok tt
  | _ =>
      if negb (bool_decide (comp_type = check_type)) then Raise ValueError
      else Ok tt
  end.

Definition basic_vector_variable (check_vector_variable : string)
    (external_domain internal_domain : OptDomain) : result Domain.t :=
  valid_domain <~ get_valid_domain external_domain internal_domain ;;
  __check_component_type check_vector_variable BASIC valid_domain ~;;
  Ok valid_domain.

Definition layer_vector_variable (check_vector_variable : string)
    (external_domain internal_domain : OptDomain) : result Domain.t :=
  valid_domain <~ get_valid_domain external_domain internal_domain ;;
  __check_component_type check_vector_variable LAYER valid_domain ~;;
  Ok valid_domain.

(** *** DEF. CHECKING *)

Definition is_defined_variable (variable : string)
    (external_domain internal_domain : OptDomain) : result Domain.t :=
  valid_domain <~ get_valid_domain external_domain internal_domain ;;
  if negb (Domain.is_defined_variable valid_domain variable)
  then Raise DomainError
  else Ok valid_domain.

Definition is_defined_as_layer (variable : string)
    (external_domain internal_domain : OptDomain) : result unit :=
  valid_domain <~ is_defined_variable variable external_domain
                    internal_domain ;;
  var_type <~ get_variable_type valid_domain variable ;;
  if negb (bool_decide (var_type = LAYER)) then Raise DomainError else Ok tt.

Definition is_defined_as_vector_variable (variable : string)
    (external_domain internal_domain : OptDomain) : result unit :=
  valid_domain <~ is_defined_variable variable external_domain
                    internal_domain ;;
  var_type <~ get_variable_type valid_domain variable ;;
  if negb (bool_decide (var_type = VECTOR)) then Raise DomainError
  else
    defined <~ are_defined_components valid_domain variable ;;
    if negb defined then Raise DomainError else Ok tt.

(** The second test reads [if not ... is not LAYER]: [not] applies to the
    whole comparison [... is not LAYER]. *)
Definition is_defined_as_layer_vector_variable (variable : string)
    (external_domain internal_domain : OptDomain) : result unit :=
  valid_domain <~ is_defined_variable variable external_domain
                    internal_domain ;;
  var_type <~ get_variable_type valid_domain variable ;;
  if negb (bool_decide (var_type = VECTOR)) then Raise DomainError
  else
    comp_type <~ get_vector_components_type valid_domain variable ;;
    if negb (negb (bool_decide (comp_type = LAYER))) then Raise DomainError
    else Ok tt.

End ctrl_dom.

(** ** [pycvoa/problem/ctrl/domain.py]: the module [solution.py] imports
    as [ctrl_dom]

    The earlier generation of the checks: it reports a missing domain, a
    rejected value and a wrong category as a [ValueError].  Its functions
    are [domain_layer_vector_list], [__list_size], [__layer_vector_list],
    [domain_basic_value], [domain_layer_element_value],
    [domain_basic_vector_list], [domain_basic_vector_value],
    [domain_layer_vector_element], [domain_layer_vector_component],
    [get_valid_domain], [basic_variable], [layer_variable_element],
    [basic_vector_variable], [__check_variable_type] and
    [__check_component_type]; those that [Solution] calls, and the value
    checks that have a counterpart in [pycvoa/control/domain.py], are
    modelled. *)
Module problem_ctrl_dom.

(** [ctrl_dom.name] for a [name] that is not among the functions of the
    module: the module has no such attribute, and the lookup raises
    [AttributeError] before an argument of the call is evaluated. *)
Definition unbound {A : Type} (name : string) : result A :=
  Raise AttributeError.

(** [ctrl_param.is_domain_class] accepts a [Domain] or [None], which is
    all an [OptDomain] can be. *)
Definition get_valid_domain (external_domain internal_domain : OptDomain)
  : result Domain.t :=
  let current_domain := external_domain in
  let current_domain :=
    match current_domain with
    | None => internal_domain
    | Some _ => current_domain
    end in
  match current_domain with
  | None => Raise ValueError
  | Some current_domain => Ok current_domain
  end.


Definition domain_layer_element_value (layer_variable element : string)
    (value : Basic) (external_domain internal_domain : OptDomain)
  : result unit :=
  valid_domain <~ get_valid_domain external_domain internal_domain ;;
  ok <~ Domain.check_element valid_domain layer_variable element value ;;
  if negb ok then Raise ValueError else Ok tt.

(** ["The value " + value]: the message of the two checks below is built
    with the value itself, not with [str(value)], and the concatenation of a
    [str] with an [int] or a [float] raises [TypeError]. *)
Definition concatenated (value : Basic) : result unit :=
  match value with
  | PyStr _ => Ok tt
  | PyInt _ | PyFloat _ => Raise TypeError
  end.


Definition domain_layer_vector_element (layer_vector_variable element : string)
    (value : Basic) (external_domain internal_domain : OptDomain)
  : result Domain.t :=
  valid_domain <~ get_valid_domain external_domain internal_domain ;;
  ok <~ Domain.check_vector_layer_element_value valid_domain
          layer_vector_variable element value ;;
  if negb ok then (concatenated value ~;; Raise ValueError)
  else Ok valid_domain.

(** *** Definition checks

    The type tags are [str]s (the annotation [check_type: str] of
    [Solution.check_variable_type]) and [BASIC] is the group of the three
    scalar tags, which [var_type not in BASIC] searches;
    [pycvoa/problem/types.py] is not among the sources. *)

(** ["... is not defined as " + check_type + "."]: a tag is a [str]; a
    group cannot be concatenated to one. *)
Definition named_in_message (check_type : Domain.PYCVOA_TYPE) : result unit :=
  match check_type with
  | Domain.BASIC | Domain.NUMERICAL => Raise TypeError
  | _ => Ok tt
  end.

Definition __check_variable_type (variable : string)
    (check_type : Domain.PYCVOA_TYPE) (domain : Domain.t) : result unit :=
  var_type <~ Domain.get_variable_type domain variable ;;
  match check_type with
  | Domain.BASIC =>
      if negb (bool_decide (var_type ∈ Domain.BASICS)) then Raise ValueError
      else Ok tt
  | _ =>
      if negb (bool_decide (var_type = check_type))
      then (named_in_message check_type ~;; Raise ValueError)
      else Ok tt
  end.

Definition __check_component_type (check_vector_variable : string)
    (check_type : Domain.PYCVOA_TYPE) (domain : Domain.t) : result unit :=
  comp_type <~ Domain.get_vector_components_type domain
                 check_vector_variable ;;
  match check_type with
  | Domain.BASIC =>
      if negb (bool_decide (comp_type ∈ Domain.BASICS)) then Raise ValueError
      else Ok tt
  | _ =>
      if negb (bool_decide (comp_type = check_type))
      then (named_in_message check_type ~;; Raise ValueError)
      else Ok tt
  end.

Definition basic_variable (check_basic_variable : string)
    (external_domain internal_domain : OptDomain) : result Domain.t :=
  valid_domain <~ get_valid_domain external_domain internal_domain ;;
  __check_variable_type check_basic_variable Domain.BASIC valid_domain ~;;
  Ok valid_domain.

(** The message of the [DefinitionError] is built with [element] itself:
    an object that is not a [str] raises [TypeError] there. *)
Definition layer_variable_element (check_layer_variable : string)
    (element : PyArg) (external_domain internal_domain : OptDomain)
  : result Domain.t :=
  valid_domain <~ get_valid_domain external_domain internal_domain ;;
  __check_variable_type check_layer_variable Domain.LAYER valid_domain ~;;
  defined <~ Domain.is_defined_element valid_domain check_layer_variable
               element ;;
  if negb defined then
    match element with
    | ArgStr _ => Raise DefinitionError
    | ArgDict _ => Raise TypeError
    end
  else Ok valid_domain.

Definition basic_vector_variable (check_vector_variable : string)
    (external_domain internal_domain : OptDomain) : result Domain.t :=
  valid_domain <~ get_valid_domain external_domain internal_domain ;;
  __check_component_type check_vector_variable Domain.BASIC valid_domain ~;;
  Ok valid_domain.

End problem_ctrl_dom.

(** ** [pycvoa/problem/ctrl/solution.py] *)
Module ctrl_sol.

Definition is_assigned_variable (variable : string)
    (solution_structure : pydict Value) : result unit :=
  if negb (dict_mem variable solution_structure) then Raise SolutionError
  else Ok tt.

Definition is_assigned_layer_element (layer_variable element : string)
    (solution_structure : pydict Value) : result unit :=
  is_assigned_variable layer_variable solution_structure ~;;
  match dict_get layer_variable solution_structure with
  | Some layer =>
      keys <~ as_dict layer ;;
      if negb (dict_mem element keys) then Raise SolutionError else Ok tt
  | None => Raise TypeError
  end.

(** [index < 0 or index >= len(...)]: the length is not taken when the
    index is negative. *)
Definition is_assigned_component (vector_variable : string) (index : Z)
    (solution_structure : pydict Value) : result unit :=
  if index <? 0 then Raise SolutionError
  else
    size <~ py_len (dict_get vector_variable solution_structure) ;;
    if size <=? index then Raise SolutionError else Ok tt.

Definition vector_insertion_available (vector_variable : string)
    (domain : Domain.t) (solution_structure : pydict Value) : result unit :=
  vector_size <~
    (if dict_mem vector_variable solution_structure
     then py_len (dict_get vector_variable solution_structure)
     else Ok 0) ;;
  remaining <~ Domain.get_remaining_available_basic_components domain
                 vector_variable vector_size ;;
  if remaining =? 0 then Raise SolutionError else Ok tt.

Definition vector_adding_available (vector_variable : string)
    (remaining : Z) : result unit :=
  if remaining =? 0 then Raise SolutionError else Ok tt.

(** The body of this check is [pass]. *)
Definition vector_element_adding_available (layer_vector_variable : string)
    (solution_structure : pydict Value) (domain : Domain.t) : result unit :=
  Ok tt.

Definition assigned_vector_removal_available (vector_variable : string)
    (solution_structure : pydict Value) (domain : Domain.t) : result unit :=
  is_assigned_variable vector_variable solution_structure ~;;
  size <~ py_len (dict_get vector_variable solution_structure) ;;
  remaining <~ Domain.get_remaining_available_basic_components domain
                 vector_variable size ;;
  if remaining <? 0 then Raise SolutionError else Ok tt.

(** The index is used as it comes: no range check precedes
    [solution_structure.get(...)[index]]. *)
Definition is_assigned_component_element (layer_vector_variable : string)
    (index : Z) (element : string) (solution_structure : pydict Value)
  : result unit :=
  vector <~ as_list (dict_get layer_vector_variable solution_structure) ;;
  component <~ py_getitem vector index ;;
  layer <~ as_dict component ;;
  if negb (dict_mem element layer) then Raise SolutionError else Ok tt.

End ctrl_sol.

(** ** [pycvoa/problem/solution.py]: class [Solution]

    The module opens with
    [from pycvoa.problem.ctrl import domain as ctrl_dom]: every
    [ctrl_dom.name] of the class is an attribute of
    [pycvoa/problem/ctrl/domain.py], [problem_ctrl_dom] above.  The setters
    ask it for [check_basic_value], [check_basic_vector_value] and the
    like, and seven of the queries for [domain_defined_assigned],
    [layer_vector], [vector_type] and the like: names that module does not
    define, so that the first statement of these methods raises
    [AttributeError] (in [get_layer_component_value] the first after two
    type checks of the arguments).  The statements after it are modelled as
    they are written. *)
Module Solution.

Record t : Type := {
  __domain : OptDomain;
  __variables : pydict Value;
  discovery_iteration : Z;
  fitness : Q
}.

(** [sys.float_info.max] *)
Definition sys_float_info_max : Q := inject_Z ((2 ^ 53 - 1) * 2 ^ 971).

Definition __init__ (best : bool) (domain : OptDomain) : t :=
  {| __domain := domain;
     __variables := [];
     discovery_iteration := 0;
     fitness := if best then inject_Z 0 else sys_float_info_max |}.

Definition with_variables (self : t) (variables : pydict Value) : t :=
  {| __domain := __domain self;
     __variables := variables;
     discovery_iteration := discovery_iteration self;
     fitness := fitness self |}.

Definition set_domain (domain : OptDomain) (self : t) : t :=
  {| __domain := domain;
     __variables := __variables self;
     discovery_iteration := discovery_iteration self;
     fitness := fitness self |}.

(** A method that works on [self.__variables] only. *)
Definition on_variables {A} (m : M (pydict Value) A) : M t A :=
  fun self =>
    let (variables, r) := m (__variables self) in
    (with_variables self variables, r).

(** [variables[name] = value] *)
Definition assign (name : string) (value : Value) : M (pydict Value) unit :=
  fun variables => (dict_set name value variables, Ok tt).

(** *** Static methods

    The store of the model holds values: every variable holds an object of
    its own.  The writes of [set_layer] and of [list.insert] in
    [__put_layer] store the caller's object without [copy.deepcopy], and the
    element-level writes change a stored [dict] in place; one object held at
    two places is outside the model.  Each of these writes comes after a
    first statement that raises. *)

Definition __put_basic (basic_vector_variable : string) (value : Basic)
    (external_domain internal_domain : OptDomain) (index : option Z)
  : M (pydict Value) Z :=
  valid_domain <- lift (problem_ctrl_dom.unbound "check_basic_vector_value") ;;
  variables <- get ;;
  if negb (dict_mem basic_vector_variable variables) then
    assign basic_vector_variable (VList [VBasic value]) ;;
    variables <- get ;;
    size <- lift (py_len (dict_get basic_vector_variable variables)) ;;
    lift (Domain.get_remaining_available_complete_components
            valid_domain basic_vector_variable size)
  else
    lift (ctrl_sol.vector_insertion_available
            basic_vector_variable valid_domain variables) ;;
    size <- lift (py_len (dict_get basic_vector_variable variables)) ;;
    r <- lift (Domain.get_remaining_available_complete_components
                 valid_domain basic_vector_variable size) ;;
    lift (ctrl_sol.vector_adding_available basic_vector_variable r) ;;
    vector <- lift (as_list (dict_get basic_vector_variable variables)) ;;
    vector' <- lift match index with
                    | None => Ok (py_append vector (VBasic value))
                    | Some index => py_insert vector index (VBasic value)
                    end ;;
    assign basic_vector_variable (VList vector') ;;
    ret (r - 1).

Definition __put_layer (layer_vector_variable : string)
    (layer_values : SolLayer)
    (external_domain internal_domain : OptDomain) (index : option Z)
  : M (pydict Value) Z :=
  current_domain <- lift (problem_ctrl_dom.unbound
                            "check_layer_vector_component") ;;
  variables <- get ;;
  if negb (dict_mem layer_vector_variable variables) then
    assign layer_vector_variable (VList [deepcopy (of_layer layer_values)]) ;;
    variables <- get ;;
    size <- lift (py_len (dict_get layer_vector_variable variables)) ;;
    lift (Domain.get_remaining_available_complete_components
            current_domain layer_vector_variable size)
  else
    size <- lift (py_len (dict_get layer_vector_variable variables)) ;;
    r <- lift (Domain.get_remaining_available_complete_components
                 current_domain layer_vector_variable size) ;;
    lift (ctrl_sol.vector_adding_available layer_vector_variable r) ;;
    vector <- lift (as_list (dict_get layer_vector_variable variables)) ;;
    vector' <- lift match index with
                    | None =>
                        Ok (py_append vector
                              (deepcopy (of_layer layer_values)))
                    | Some index =>
                        py_insert vector index (of_layer layer_values)
                    end ;;
    assign layer_vector_variable (VList vector') ;;
    ret (r - 1).

(** The local [valid_index] is bound in the second branch only: it is an
    [option] here, [None] while unbound, and the [return] that reads it
    unbound raises [UnboundLocalError].  [ctrl_par.is_int("index", index)]
    holds of every typed [index]. *)
Definition __put_element (layer_vector_variable element : string)
    (value : Basic) (external_domain internal_domain : OptDomain)
    (index : option Z) : M (pydict Value) Z :=
  valid_domain <- lift (problem_ctrl_dom.unbound
                          "check_layer_vector_element") ;;
  variables <- get ;;
  valid_index <-
    (if negb (dict_mem layer_vector_variable variables) then
       assign layer_vector_variable
         (VList [VDict [(element, VBasic value)]]) ;;
       ret None
     else
       lift (ctrl_sol.vector_element_adding_available
               layer_vector_variable variables valid_domain) ;;
       let valid_index := match index with None => -1 | Some i => i end in
       vector <- lift (as_list (dict_get layer_vector_variable variables)) ;;
       component <- lift (py_getitem vector valid_index) ;;
       layer <- lift (as_dict component) ;;
       (if dict_mem element layer then
          vector' <- lift match index with
                          | None =>
                              Ok (py_append vector
                                    (VDict [(element, VBasic value)]))
                          | Some index =>
                              py_insert vector index
                                (VDict [(element, VBasic value)])
                          end ;;
          assign layer_vector_variable (VList vector')
        else
          vector' <- lift (py_setitem vector valid_index
                             (VDict (dict_set element (VBasic value) layer))) ;;
          assign layer_vector_variable (VList vector')) ;;
       ret (Some valid_index)) ;;
  variables <- get ;;
  size <- lift (py_len (dict_get layer_vector_variable variables)) ;;
  match valid_index with
  | None => raise UnboundLocalError
  | Some valid_index =>
      vector <- lift (as_list (dict_get layer_vector_variable variables)) ;;
      component <- lift (py_getitem vector valid_index) ;;
      layer <- lift (as_dict component) ;;
      lift (Domain.get_remaining_available_layer_components
              valid_domain layer_vector_variable size layer)
  end.

(** *** BASIC and LAYER setters *)

Definition set_basic (basic_variable : string) (value : Basic)
    (domain : OptDomain) : M t unit :=
  lift (problem_ctrl_dom.unbound "check_basic_value" : result unit) ;;
  on_variables (assign basic_variable (deepcopy (VBasic value))).

Definition set_layer (layer_variable : string) (layer_value : SolLayer)
    (domain : OptDomain) : M t unit :=
  lift (problem_ctrl_dom.unbound "check_layer_value" : result unit) ;;
  on_variables (assign layer_variable (of_layer layer_value)).

Definition set_element (layer_variable element : string) (value : Basic)
    (domain : OptDomain) : M t unit :=
  lift (problem_ctrl_dom.unbound "check_layer_element_value" : result unit) ;;
  self <- get ;;
  if negb (dict_mem layer_variable (__variables self)) then
    on_variables (assign layer_variable (VDict [(element, VBasic value)]))
  else
    match dict_get layer_variable (__variables self) with
    | Some (VDict layer_value) =>
        on_variables
          (assign layer_variable
             (VDict (dict_set element (VBasic value) layer_value)))
    | _ => raise AssertionError
    end.

(** *** BASIC VECTOR methods *)

Definition set_basic_vector (vector_variable : string)
    (values : BasicValueList) (domain : OptDomain) : M t unit :=
  lift (problem_ctrl_dom.unbound "check_basic_vector_values" : result unit) ;;
  on_variables (assign vector_variable (deepcopy (of_basic_vector values))).

Definition add_basic_component (basic_vector_variable : string)
    (value : Basic) (domain : OptDomain) : M t Z :=
  self <- get ;;
  on_variables
    (__put_basic basic_vector_variable value domain (__domain self) None).

Definition insert_basic_component (basic_vector_variable : string)
    (index : Z) (value : Basic) (domain : OptDomain) : M t Z :=
  self <- get ;;
  on_variables
    (__put_basic basic_vector_variable value domain (__domain self)
       (Some index)).

Definition set_basic_component (basic_vector_variable : string) (index : Z)
    (value : Basic) (domain : OptDomain) : M t unit :=
  lift (problem_ctrl_dom.unbound "check_basic_vector_value" : result unit) ;;
  self <- get ;;
  if negb (dict_mem basic_vector_variable (__variables self)) then
    on_variables (assign basic_vector_variable (VList [VBasic value]))
  else
    lift (ctrl_sol.is_assigned_component basic_vector_variable index
            (__variables self)) ;;
    vector <- lift (as_list (dict_get basic_vector_variable
                               (__variables self))) ;;
    vector' <- lift (py_setitem vector index (VBasic value)) ;;
    on_variables (assign basic_vector_variable (VList vector')).

(** *** LAYER VECTOR methods *)

Definition set_layer_vector (layer_vector_variable : string)
    (values : LayerVectorValue) (domain : OptDomain) : M t unit :=
  lift (problem_ctrl_dom.unbound "check_layer_vector_values" : result unit) ;;
  on_variables
    (assign layer_vector_variable (deepcopy (of_layer_vector values))).

Definition add_layer_component (layer_vector_variable : string)
    (layer_values : SolLayer) (domain : OptDomain) : M t Z :=
  self <- get ;;
  on_variables
    (__put_layer layer_vector_variable layer_values domain (__domain self)
       None).

Definition insert_layer_component (layer_vector_variable : string)
    (index : Z) (layer_values : SolLayer) (domain : OptDomain) : M t Z :=
  self <- get ;;
  on_variables
    (__put_layer layer_vector_variable layer_values domain (__domain self)
       (Some index)).

Definition set_layer_component (layer_vector_variable : string) (index : Z)
    (layer_values : SolLayer) (domain : OptDomain) : M t unit :=
  lift (problem_ctrl_dom.unbound "check_layer_vector_component"
        : result unit) ;;
  self <- get ;;
  if negb (dict_mem layer_vector_variable (__variables self)) then
    on_variables
      (assign layer_vector_variable
         (VList [deepcopy (of_layer layer_values)]))
  else
    lift (ctrl_sol.is_assigned_component layer_vector_variable index
            (__variables self)) ;;
    vector <- lift (as_list (dict_get layer_vector_variable
                               (__variables self))) ;;
    vector' <- lift (py_setitem vector index
                       (deepcopy (of_layer layer_values))) ;;
    on_variables (assign layer_vector_variable (VList vector')).

Definition add_element_to_layer_component
    (layer_vector_variable element : string) (value : Basic)
    (domain : OptDomain) : M t Z :=
  self <- get ;;
  on_variables
    (__put_element layer_vector_variable element value domain
       (__domain self) None).

Definition insert_element_to_layer_component
    (layer_vector_variable : string) (index : Z) (element : string)
    (value : Basic) (domain : OptDomain) : M t Z :=
  self <- get ;;
  on_variables
    (__put_element layer_vector_variable element value domain
       (__domain self) (Some index)).

Definition set_element_of_layer_component
    (layer_vector_variable : string) (index : Z) (element : string)
    (value : Basic) (domain : OptDomain) : M t unit :=
  lift (problem_ctrl_dom.unbound "check_layer_vector_element"
        : result unit) ;;
  self <- get ;;
  if negb (dict_mem layer_vector_variable (__variables self)) then
    on_variables
      (assign layer_vector_variable (VList [VDict [(element, VBasic value)]]))
  else
    lift (ctrl_sol.is_assigned_component layer_vector_variable index
            (__variables self)) ;;
    vector <- lift (as_list (dict_get layer_vector_variable
                               (__variables self))) ;;
    component <- lift (py_getitem vector index) ;;
    layer <- lift (as_dict component) ;;
    vector' <- lift (py_setitem vector index
                       (VDict (dict_set element (VBasic value) layer))) ;;
    on_variables (assign layer_vector_variable (VList vector')).

(** *** VECTOR removes *)

Definition remove_component (vector_variable : string) (domain : OptDomain)
  : M t unit :=
  self <- get ;;
  valid_domain <- lift (problem_ctrl_dom.get_valid_domain domain
                          (__domain self)) ;;
  lift (ctrl_sol.is_assigned_variable vector_variable (__variables self)) ;;
  r <- lift (ctrl_sol.assigned_vector_removal_available vector_variable
               (__variables self) valid_domain) ;;
  vector <- lift (as_list (dict_get vector_variable (__variables self))) ;;
  vector' <- lift (py_pop vector) ;;
  on_variables (assign vector_variable (VList vector')) ;;
  ret r.

Definition delete_component (vector_variable : string) (index : Z)
    (domain : OptDomain) : M t unit :=
  self <- get ;;
  valid_domain <- lift (problem_ctrl_dom.get_valid_domain domain
                          (__domain self)) ;;
  lift (ctrl_sol.is_assigned_variable vector_variable (__variables self)) ;;
  r <- lift (ctrl_sol.assigned_vector_removal_available vector_variable
               (__variables self) valid_domain) ;;
  lift (ctrl_sol.is_assigned_component vector_variable index
          (__variables self)) ;;
  vector <- lift (as_list (dict_get vector_variable (__variables self))) ;;
  vector' <- lift (py_delitem vector index) ;;
  on_variables (assign vector_variable (VList vector')) ;;
  ret r.

(** *** IS methods

    [BASIC_TYPE] is the group of the three scalar type tags, as [BASIC] is
    in [problem_ctrl_dom]. *)

Definition is_available (variable : string) (self : t) : bool :=
  let r := false in
  if dict_mem variable (__variables self) then true else r.

Definition check_variable_type (variable : string)
    (check_type : Domain.PYCVOA_TYPE) (domain : OptDomain) : M t bool :=
  valid_domain <- lift (problem_ctrl_dom.unbound "domain_defined_assigned") ;;
  variable_type <- lift (Domain.get_variable_type valid_domain variable) ;;
  ret match check_type with
      | Domain.BASIC => bool_decide (variable_type ∈ Domain.BASICS)
      | _ => bool_decide (variable_type = check_type)
      end.

Definition check_component_type (vector_variable : string)
    (check_component_type : Domain.PYCVOA_TYPE) (domain : OptDomain)
  : M t bool :=
  valid_domain <- lift (problem_ctrl_dom.unbound
                          "domain_defined_as_vector_assigned") ;;
  component_type <- lift (Domain.get_vector_components_type valid_domain
                            vector_variable) ;;
  ret match check_component_type with
      | Domain.BASIC => bool_decide (component_type ∈ Domain.BASICS)
      | _ => bool_decide (component_type = check_component_type)
      end.

Definition is_available_element (layer_variable element : string)
    (domain : OptDomain) : M t bool :=
  lift (problem_ctrl_dom.unbound "domain_defined_as_layer_assigned"
        : result unit) ;;
  self <- get ;;
  match dict_get layer_variable (__variables self) with
  | Some layer =>
      layer <- lift (as_dict layer) ;;
      ret (dict_mem element layer)
  | None => raise TypeError
  end.

(** [0 <= index < len(...)]: the length is not taken when the index is
    negative. *)
Definition is_available_component (vector_variable : string) (index : Z)
    (domain : OptDomain) : M t bool :=
  lift (problem_ctrl_dom.unbound "domain_defined_as_vector_assigned"
        : result unit) ;;
  self <- get ;;
  if 0 <=? index then
    size <- lift (py_len (dict_get vector_variable (__variables self))) ;;
    ret (index <? size)
  else ret false.

Definition is_available_component_element (layer_vector_variable : string)
    (index : Z) (element : string) (domain : OptDomain) : M t bool :=
  lift (problem_ctrl_dom.unbound "domain_defined_as_layer_vector_assigned"
        : result unit) ;;
  self <- get ;;
  lift (ctrl_sol.is_assigned_component layer_vector_variable index
          (__variables self)) ;;
  vector <- lift (as_list (dict_get layer_vector_variable
                             (__variables self))) ;;
  component <- lift (py_getitem vector index) ;;
  layer <- lift (as_dict component) ;;
  ret (dict_mem element layer).

(** *** Getters *)

(** [dict.get] returns [None] for a missing key: the getters return an
    [option], [None] being Python's [None]. *)
Definition get_basic_value (basic_variable : string) (domain : OptDomain)
  : M t (option Value) :=
  self <- get ;;
  lift (problem_ctrl_dom.basic_variable basic_variable domain
          (__domain self)) ;;
  lift (ctrl_sol.is_assigned_variable basic_variable (__variables self)) ;;
  ret (dict_get basic_variable (__variables self)).

(** The first call hands [self.__variables] over in the place of the
    element name. *)
Definition get_element_value (layer_variable element : string)
    (domain : OptDomain) : M t (option Value) :=
  self <- get ;;
  lift (problem_ctrl_dom.layer_variable_element layer_variable
          (ArgDict (__variables self)) domain (__domain self)) ;;
  lift (ctrl_sol.is_assigned_layer_element layer_variable element
          (__variables self)) ;;
  match dict_get layer_variable (__variables self) with
  | Some layer =>
      layer <- lift (as_dict layer) ;;
      ret (dict_get element layer)
  | None => raise TypeError
  end.

(** [ctrl_par.is_int("index", index)] holds of every typed [index]. *)
Definition get_basic_component_value (basic_vector_variable : string)
    (index : Z) (domain : OptDomain) : M t (option Value) :=
  self <- get ;;
  lift (problem_ctrl_dom.basic_vector_variable basic_vector_variable domain
          (__domain self)) ;;
  lift (ctrl_sol.is_assigned_component basic_vector_variable index
          (__variables self)) ;;
  vector <- lift (as_list (dict_get basic_vector_variable
                             (__variables self))) ;;
  component <- lift (py_getitem vector index) ;;
  ret (Some component).

(** [ctrl_par.is_int] and [ctrl_par.is_string] hold of the typed [index]
    and [element]. *)
Definition get_layer_component_value (layer_vector_variable : string)
    (index : Z) (element : string) (domain : OptDomain)
  : M t (option Value) :=
  lift (problem_ctrl_dom.unbound "layer_vector" : result unit) ;;
  self <- get ;;
  lift (ctrl_sol.is_assigned_component_element layer_vector_variable index
          element (__variables self)) ;;
  vector <- lift (as_list (dict_get layer_vector_variable
                             (__variables self))) ;;
  component <- lift (py_getitem vector index) ;;
  layer <- lift (as_dict component) ;;
  match dict_get element layer with
  | Some value => ret (Some value)
  | None => raise KeyError
  end.

Definition get_vector_size (vector_variable : string) (domain : OptDomain)
  : M t Z :=
  lift (problem_ctrl_dom.unbound "vector_type" : result unit) ;;
  self <- get ;;
  lift (ctrl_sol.is_assigned_variable vector_variable (__variables self)) ;;
  lift (py_len (dict_get vector_variable (__variables self))).

(** *** Equality *)

(** The right operand of [==]: any object. *)
Inductive operand : Type :=
  | a_Solution (other : t)
  | another_object.

(** Python's [!=] on what the getters returned. *)
Definition py_ne (vf vo : option Value) : bool :=
  match vf, vo with
  | Some a, Some b => negb (value_eqb a b)
  | None, None => false
  | _, _ => true
  end.

(** The loop [while i < len(keys) & res: ...] of [__eq__].  [&] binds
    tighter than [<], and on an [int] and a [bool] it is the bitwise and
    of the number with 0 or 1.  [None] when the fuel runs out. *)
Fixpoint eq_loop (fuel : nat) (self other : t) (keys : list string)
    (i : Z) (res : bool) : option (result bool) :=
  if i <? Z.land (len keys) (Z.b2z res) then
    match fuel with
    | O => None
    | S fuel' =>
        match py_getitem keys i with
        | Raise e => Some (Raise e)
        | Ok key =>
            match snd (get_basic_value key None self) with
            | Raise e => Some (Raise e)
            | Ok vf =>
                match snd (get_basic_value key None other) with
                | Raise e => Some (Raise e)
                | Ok vo =>
                    let res := if py_ne vf vo then false else res in
                    eq_loop fuel' self other keys (i + 1) res
                end
            end
        end
    end
  else Some (Ok res).

Definition __eq__ (self : t) (other : operand) : option (result bool) :=
  match other with
  | another_object => Some (Ok false)
  | a_Solution other =>
      let keys := dict_keys (__variables self) in
      eq_loop (length keys) self other keys 0 true
  end.

Definition __ne__ (self : t) (other : operand) : option (result bool) :=
  match __eq__ self other with
  | Some (Ok res) => Some (Ok (negb res))
  | r => r
  end.

(** *** The interface as data *)

(** A call of a method that takes the optional [domain] argument:
    every such method but the dispatchers [set_value] and [get_value],
    whose tests read [BASIC_TYPE], [LAYER_TYPE] and [VECTOR_TYPE] of
    [pycvoa/problem/types.py] and [Domain.get_vector_component_definition],
    neither among the sources. *)
Inductive call : Type :=
  | Set_basic (basic_variable : string) (value : Basic)
  | Set_layer (layer_variable : string) (layer_value : SolLayer)
  | Set_element (layer_variable element : string) (value : Basic)
  | Set_basic_vector (vector_variable : string) (values : BasicValueList)
  | Add_basic_component (basic_vector_variable : string) (value : Basic)
  | Insert_basic_component (basic_vector_variable : string) (index : Z)
      (value : Basic)
  | Set_basic_component (basic_vector_variable : string) (index : Z)
      (value : Basic)
  | Set_layer_vector (layer_vector_variable : string)
      (values : LayerVectorValue)
  | Add_layer_component (layer_vector_variable : string)
      (layer_values : SolLayer)
  | Insert_layer_component (layer_vector_variable : string) (index : Z)
      (layer_values : SolLayer)
  | Set_layer_component (layer_vector_variable : string) (index : Z)
      (layer_values : SolLayer)
  | Add_element_to_layer_component (layer_vector_variable element : string)
      (value : Basic)
  | Insert_element_to_layer_component (layer_vector_variable : string)
      (index : Z) (element : string) (value : Basic)
  | Set_element_of_layer_component (layer_vector_variable : string)
      (index : Z) (element : string) (value : Basic)
  | Remove_component (vector_variable : string)
  | Delete_component (vector_variable : string) (index : Z)
  | Check_variable_type (variable : string) (check_type : Domain.PYCVOA_TYPE)
  | Check_component_type (vector_variable : string)
      (check_component_type : Domain.PYCVOA_TYPE)
  | Is_available_element (layer_variable element : string)
  | Is_available_component (vector_variable : string) (index : Z)
  | Is_available_component_element (layer_vector_variable : string)
      (index : Z) (element : string)
  | Get_basic_value (basic_variable : string)
  | Get_element_value (layer_variable element : string)
  | Get_basic_component_value (basic_vector_variable : string) (index : Z)
  | Get_layer_component_value (layer_vector_variable : string) (index : Z)
      (element : string)
  | Get_vector_size (vector_variable : string).

(** What a call returned. *)
Inductive returned : Type :=
  | py_None
  | py_int (r : Z)
  | py_bool (b : bool)
  | py_value (v : option Value).

Definition returning {A} (f : A -> returned) (m : M t A) : M t returned :=
  a <- m ;; ret (f a).

Definition run (c : call) (domain : OptDomain) : M t returned :=
  match c with
  | Set_basic x v => returning (fun _ => py_None) (set_basic x v domain)
  | Set_layer x l => returning (fun _ => py_None) (set_layer x l domain)
  | Set_element x e v =>
      returning (fun _ => py_None) (set_element x e v domain)
  | Set_basic_vector x vs =>
      returning (fun _ => py_None) (set_basic_vector x vs domain)
  | Add_basic_component x v =>
      returning py_int (add_basic_component x v domain)
  | Insert_basic_component x i v =>
      returning py_int (insert_basic_component x i v domain)
  | Set_basic_component x i v =>
      returning (fun _ => py_None) (set_basic_component x i v domain)
  | Set_layer_vector x vs =>
      returning (fun _ => py_None) (set_layer_vector x vs domain)
  | Add_layer_component x l =>
      returning py_int (add_layer_component x l domain)
  | Insert_layer_component x i l =>
      returning py_int (insert_layer_component x i l domain)
  | Set_layer_component x i l =>
      returning (fun _ => py_None) (set_layer_component x i l domain)
  | Add_element_to_layer_component x e v =>
      returning py_int (add_element_to_layer_component x e v domain)
  | Insert_element_to_layer_component x i e v =>
      returning py_int (insert_element_to_layer_component x i e v domain)
  | Set_element_of_layer_component x i e v =>
      returning (fun _ => py_None)
        (set_element_of_layer_component x i e v domain)
  | Remove_component x =>
      returning (fun _ => py_None) (remove_component x domain)
  | Delete_component x i =>
      returning (fun _ => py_None) (delete_component x i domain)
  | Check_variable_type x ty =>
      returning py_bool (check_variable_type x ty domain)
  | Check_component_type x ty =>
      returning py_bool (check_component_type x ty domain)
  | Is_available_element x e =>
      returning py_bool (is_available_element x e domain)
  | Is_available_component x i =>
      returning py_bool (is_available_component x i domain)
  | Is_available_component_element x i e =>
      returning py_bool (is_available_component_element x i e domain)
  | Get_basic_value x => returning py_value (get_basic_value x domain)
  | Get_element_value x e => returning py_value (get_element_value x e domain)
  | Get_basic_component_value x i =>
      returning py_value (get_basic_component_value x i domain)
  | Get_layer_component_value x i e =>
      returning py_value (get_layer_component_value x i e domain)
  | Get_vector_size x => returning py_int (get_vector_size x domain)
  end.

(** The calls whose first statement asks [ctrl_dom] for a name that the
    imported module does not define: the fourteen setters and seven of the
    queries.  The two removals and three of the getters find theirs. *)
Definition asks_for_an_unbound_name (c : call) : bool :=
  match c with
  | Remove_component _ | Delete_component _ _
  | Get_basic_value _ | Get_element_value _ _
  | Get_basic_component_value _ _ => false
  | _ => true
  end.

End Solution.

(** ** [pycvoa/definition.py]: class [ProblemDefinition]

    The register of variable definitions.  A definition is the Python list
    the code builds ([[INTEGER, min, max, step]], [[CATEGORICAL, labels]],
    [[LAYER, {...}]], [[VECTOR, min_size, max_size, step_size, component]])
    and the methods reach into it by position, so the embedding keeps the
    lists and the subscripts as they are.  Every method makes one write, as
    its last step: a call that raises leaves the register as it was, and a
    mutator is a function from the register to the register after the call
    or the exception raised.  Arguments have the types the docstrings give
    them: names are [str], bounds, steps and labels are BASIC values,
    [categories] is a [list], sizes are [int]. *)
Module ProblemDefinition.

(** The exceptions the interpreter raises on a subscript or an attribute. *)
Inductive error : Type :=
  | KeyError
  | IndexError
  | TypeError
  | AttributeError.

Inductive outcome (A : Type) : Type :=
  | Returns (a : A)
  | Raises (e : error).
Arguments Returns {A} a.
Arguments Raises {A} e.

Definition obind {A B} (r : outcome A) (f : A -> outcome B) : outcome B :=
  match r with
  | Returns a => f a
  | Raises e => Raises e
  end.

Notation "x <<- c1 ;; c2" := (obind c1 (fun x => c2))
  (at level 100, c1 at next level, right associativity) : py_scope.

(** The objects a definition is made of: a type constant imported from
    [pycvoa], a bound, step or label, a [list] (the labels of a categorical
    definition, a nested definition) and a [dict] from element names to
    element definitions. *)
#[warnings="-register-all"]
Inductive Obj : Type :=
  | OType (ty : Domain.PYCVOA_TYPE)
  | OBasic (b : Basic)
  | OList (l : list Obj)
  | ODict (d : list (string * Obj)).

(** [l[i]] on a list *)
Definition item (l : list Obj) (i : Z) : outcome Obj :=
  match py_pos (len l) i with
  | Some j =>
      match l !! j with Some x => Returns x | None => Raises IndexError end
  | None => Raises IndexError
  end.

(** [l[i] = x] on a list *)
Definition set_item (l : list Obj) (i : Z) (x : Obj) : outcome (list Obj) :=
  match py_pos (len l) i with
  | Some j => Returns (<[j := x]> l)
  | None => Raises IndexError
  end.

(** [o[i]] for an [int] [i]: an item of a list, a character of a string;
    no [dict] of the register has an [int] among its keys; a number has no
    subscript.  (No method subscripts a type constant.) *)
Definition getitem_int (o : Obj) (i : Z) : outcome Obj :=
  match o with
  | OList l => item l i
  | ODict _ => Raises KeyError
  | OBasic (PyStr s) =>
      match py_pos (Z.of_nat (String.length s)) i with
      | Some j =>
          match String.get j s with
          | Some c => Returns (OBasic (PyStr (String c EmptyString)))
          | None => Raises IndexError
          end
      | None => Raises IndexError
      end
  | OBasic _ | OType _ => Raises TypeError
  end.

(** [o[k]] for a [str] [k]: only a [dict] takes it. *)
Definition getitem_str (o : Obj) (k : string) : outcome Obj :=
  match o with
  | ODict d =>
      match dict_get k d with Some v => Returns v | None => Raises KeyError end
  | _ => Raises TypeError
  end.

(** [o[k] = v] for a [str] [k]; the object after the assignment. *)
Definition setitem_str (o : Obj) (k : string) (v : Obj) : outcome Obj :=
  match o with
  | ODict d => Returns (ODict (dict_set k v d))
  | _ => Raises TypeError
  end.

(** [list(o.keys())] *)
Definition keys (o : Obj) : outcome (list string) :=
  match o with
  | ODict d => Returns (dict_keys d)
  | _ => Raises AttributeError
  end.

(** The object is its only attribute, [self.__definitions]. *)
Definition t : Type := pydict (list Obj).

Definition __init__ : t := [].

(** [self.__definitions[name]] *)
Definition definition_of (self : t) (name : string) : outcome (list Obj) :=
  match dict_get name self with
  | Some definition => Returns definition
  | None => Raises KeyError
  end.

Definition register_integer_variable (name : string)
    (min_value max_value step : Basic) (self : t) : t :=
  dict_set name
    [OType Domain.INTEGER; OBasic min_value; OBasic max_value; OBasic step]
    self.

Definition register_real_variable (name : string)
    (min_value max_value step : Basic) (self : t) : t :=
  dict_set name
    [OType Domain.REAL; OBasic min_value; OBasic max_value; OBasic step]
    self.

Definition register_categorical_variable (name : string)
    (categories : list Basic) (self : t) : t :=
  dict_set name
    [OType Domain.CATEGORICAL; OList (map OBasic categories)] self.

Definition register_layer_variable (name : string) (self : t) : t :=
  dict_set name [OType Domain.LAYER; ODict []] self.

(** The body the three [insert_layer_*] methods share:
    [layer_elements = self.__definitions[layer_name][1]] and
    [layer_elements[element_name] = definition]; the [dict] is written in
    place, so the register holds it after the write. *)
Definition insert_layer (layer_name element_name : string)
    (definition : Obj) (self : t) : outcome t :=
  layer <<- definition_of self layer_name ;;
  layer_elements <<- item layer 1 ;;
  layer_elements <<- setitem_str layer_elements element_name definition ;;
  Returns (dict_set layer_name (<[1%nat := layer_elements]> layer) self).

Definition insert_layer_integer (layer_name element_name : string)
    (min_value max_value step : Basic) : t -> outcome t :=
  insert_layer layer_name element_name
    (OList [OType Domain.INTEGER; OBasic min_value; OBasic max_value;
            OBasic step]).

Definition insert_layer_real (layer_name element_name : string)
    (min_value max_value step : Basic) : t -> outcome t :=
  insert_layer layer_name element_name
    (OList [OType Domain.REAL; OBasic min_value; OBasic max_value;
            OBasic step]).

Definition insert_layer_categorical (layer_name element_name : string)
    (categories : list Basic) : t -> outcome t :=
  insert_layer layer_name element_name
    (OList [OType Domain.CATEGORICAL; OList (map OBasic categories)]).

Definition register_vector_variable (name : string)
    (min_size max_size step_size : Z) (self : t) : t :=
  dict_set name
    [OType Domain.VECTOR; OBasic (PyInt min_size); OBasic (PyInt max_size);
     OBasic (PyInt step_size); ODict []] self.

(** The body the four [set_vector_component_to_*] methods share:
    [self.__definitions[vector_variable_name][4] = definition]. *)
Definition set_vector_component (vector_variable_name : string)
    (definition : Obj) (self : t) : outcome t :=
  vector <<- definition_of self vector_variable_name ;;
  vector <<- set_item vector 4 definition ;;
  Returns (dict_set vector_variable_name vector self).

Definition set_vector_component_to_integer (vector_variable_name : string)
    (min_value max_value step : Basic) : t -> outcome t :=
  set_vector_component vector_variable_name
    (OList [OType Domain.INTEGER; OBasic min_value; OBasic max_value;
            OBasic step]).

Definition set_vector_component_to_real (vector_variable_name : string)
    (min_value max_value step : Basic) : t -> outcome t :=
  set_vector_component vector_variable_name
    (OList [OType Domain.REAL; OBasic min_value; OBasic max_value;
            OBasic step]).

Definition set_vector_component_to_categorical (vector_variable_name : string)
    (categories : list Basic) : t -> outcome t :=
  set_vector_component vector_variable_name
    (OList [OType Domain.CATEGORICAL; OList (map OBasic categories)]).

Definition set_vector_component_to_layer (vector_variable_name : string)
  : t -> outcome t :=
  set_vector_component vector_variable_name
    (OList [OType Domain.LAYER; ODict []]).

(** [o[1] = x] written back into the list [o] it was read from. *)
Definition with_second (o x : Obj) : Obj :=
  match o with
  | OList l => OList (<[1%nat := x]> l)
  | _ => o
  end.

(** The body the three [insert_*_in_vector_layer_component] methods share:
    [layer_definition = self.__definitions[vector_variable_name][4]],
    [layer_elements = layer_definition[1]] and
    [layer_elements[element_name] = definition], written in place. *)
Definition insert_in_vector_layer_component
    (vector_variable_name element_name : string) (definition : Obj)
    (self : t) : outcome t :=
  vector <<- definition_of self vector_variable_name ;;
  layer_definition <<- item vector 4 ;;
  layer_elements <<- getitem_int layer_definition 1 ;;
  layer_elements <<- setitem_str layer_elements element_name definition ;;
  Returns (dict_set vector_variable_name
             (<[4%nat := with_second layer_definition layer_elements]> vector)
             self).

Definition insert_integer_in_vector_layer_component
    (vector_variable_name element_name : string)
    (min_value max_value step : Basic) : t -> outcome t :=
  insert_in_vector_layer_component vector_variable_name element_name
    (OList [OType Domain.INTEGER; OBasic min_value; OBasic max_value;
            OBasic step]).

Definition insert_real_in_vector_layer_component
    (vector_variable_name element_name : string)
    (min_value max_value step : Basic) : t -> outcome t :=
  insert_in_vector_layer_component vector_variable_name element_name
    (OList [OType Domain.REAL; OBasic min_value; OBasic max_value;
            OBasic step]).

Definition insert_categorical_in_vector_layer_component
    (vector_variable_name element_name : string) (categories : list Basic)
  : t -> outcome t :=
  insert_in_vector_layer_component vector_variable_name element_name
    (OList [OType Domain.CATEGORICAL; OList (map OBasic categories)]).

Definition get_internal_definition (self : t) : t := self.

(** [self.__definitions.items()], in insertion order *)
Definition get_definition_list (self : t) : list (string * list Obj) := self.

Definition get_variable_list (self : t) : list string := dict_keys self.

Definition get_variable_definition (variable : string) (self : t)
  : outcome (list Obj) :=
  definition_of self variable.

Definition get_variable_type (variable : string) (self : t) : outcome Obj :=
  definition <<- definition_of self variable ;;
  item definition 0.

Definition get_layer_element_list (layer_variable : string) (self : t)
  : outcome (list string) :=
  definition <<- definition_of self layer_variable ;;
  layer_elements <<- item definition 1 ;;
  keys layer_elements.

Definition get_layer_element_type (layer_variable element : string)
    (self : t) : outcome Obj :=
  definition <<- definition_of self layer_variable ;;
  layer_elements <<- item definition 1 ;;
  element_definition <<- getitem_str layer_elements element ;;
  getitem_int element_definition 0.

Definition get_layer_element_definition (layer_variable element : string)
    (self : t) : outcome Obj :=
  definition <<- definition_of self layer_variable ;;
  layer_elements <<- item definition 1 ;;
  getitem_str layer_elements element.

Definition get_vector_component_type (vector_variable : string) (self : t)
  : outcome Obj :=
  definition <<- definition_of self vector_variable ;;
  component <<- item definition 4 ;;
  getitem_int component 0.

Definition get_vector_component_definition (vector_variable : string)
    (self : t) : outcome Obj :=
  definition <<- definition_of self vector_variable ;;
  item definition 4.

Definition get_vector_layer_element_list (vector_variable : string)
    (self : t) : outcome (list string) :=
  definition <<- definition_of self vector_variable ;;
  component <<- item definition 4 ;;
  layer_elements <<- getitem_int component 1 ;;
  keys layer_elements.

Definition get_vector_layer_element_definition
    (vector_variable element : string) (self : t) : outcome Obj :=
  definition <<- definition_of self vector_variable ;;
  component <<- item definition 4 ;;
  layer_elements <<- getitem_int component 1 ;;
  getitem_str layer_elements element.

(** *** Programs over a register *)

(** One call of a mutator. *)
Inductive call : Type :=
  | Register_integer_variable (name : string) (min_value max_value step : Basic)
  | Register_real_variable (name : string) (min_value max_value step : Basic)
  | Register_categorical_variable (name : string) (categories : list Basic)
  | Register_layer_variable (name : string)
  | Insert_layer_integer (layer_name element_name : string)
      (min_value max_value step : Basic)
  | Insert_layer_real (layer_name element_name : string)
      (min_value max_value step : Basic)
  | Insert_layer_categorical (layer_name element_name : string)
      (categories : list Basic)
  | Register_vector_variable (name : string) (min_size max_size step_size : Z)
  | Set_vector_component_to_integer (vector_variable_name : string)
      (min_value max_value step : Basic)
  | Set_vector_component_to_real (vector_variable_name : string)
      (min_value max_value step : Basic)
  | Set_vector_component_to_categorical (vector_variable_name : string)
      (categories : list Basic)
  | Set_vector_component_to_layer (vector_variable_name : string)
  | Insert_integer_in_vector_layer_component
      (vector_variable_name element_name : string)
      (min_value max_value step : Basic)
  | Insert_real_in_vector_layer_component
      (vector_variable_name element_name : string)
      (min_value max_value step : Basic)
  | Insert_categorical_in_vector_layer_component
      (vector_variable_name element_name : string) (categories : list Basic).

Definition run (c : call) (self : t) : outcome t :=
  match c with
  | Register_integer_variable n a b s =>
      Returns (register_integer_variable n a b s self)
  | Register_real_variable n a b s =>
      Returns (register_real_variable n a b s self)
  | Register_categorical_variable n cs =>
      Returns (register_categorical_variable n cs self)
  | Register_layer_variable n => Returns (register_layer_variable n self)
  | Insert_layer_integer l e a b s => insert_layer_integer l e a b s self
  | Insert_layer_real l e a b s => insert_layer_real l e a b s self
  | Insert_layer_categorical l e cs => insert_layer_categorical l e cs self
  | Register_vector_variable n a b s =>
      Returns (register_vector_variable n a b s self)
  | Set_vector_component_to_integer v a b s =>
      set_vector_component_to_integer v a b s self
  | Set_vector_component_to_real v a b s =>
      set_vector_component_to_real v a b s self
  | Set_vector_component_to_categorical v cs =>
      set_vector_component_to_categorical v cs self
  | Set_vector_component_to_layer v => set_vector_component_to_layer v self
  | Insert_integer_in_vector_layer_component v e a b s =>
      insert_integer_in_vector_layer_component v e a b s self
  | Insert_real_in_vector_layer_component v e a b s =>
      insert_real_in_vector_layer_component v e a b s self
  | Insert_categorical_in_vector_layer_component v e cs =>
      insert_categorical_in_vector_layer_component v e cs self
  end.

(** The register after a call made by a caller that goes on after an
    exception. *)
Definition step (self : t) (c : call) : t :=
  match run c self with
  | Returns self' => self'
  | Raises _ => self
  end.

(** The register a program builds from [ProblemDefinition()]. *)
Definition after (calls : list call) : t := fold_left step calls __init__.

(** *** The shapes of the definitions *)

Inductive basic_definition : Obj -> Prop :=
  | integer_definition a b s :
      basic_definition
        (OList [OType Domain.INTEGER; OBasic a; OBasic b; OBasic s])
  | real_definition a b s :
      basic_definition
        (OList [OType Domain.REAL; OBasic a; OBasic b; OBasic s])
  | categorical_definition cs :
      basic_definition (OList [OType Domain.CATEGORICAL; OList cs]).

Definition element_definitions (d : pydict Obj) : Prop :=
  Forall (fun kv => basic_definition kv.2) d.

Inductive component_definition : Obj -> Prop :=
  | component_not_set : component_definition (ODict [])
  | basic_component o : basic_definition o -> component_definition o
  | layer_component d :
      element_definitions d ->
      component_definition (OList [OType Domain.LAYER; ODict d]).

Inductive variable_definition : list Obj -> Prop :=
  | a_basic_variable l : basic_definition (OList l) -> variable_definition l
  | a_layer_variable d :
      element_definitions d ->
      variable_definition [OType Domain.LAYER; ODict d]
  | a_vector_variable a b s component :
      component_definition component ->
      variable_definition
        [OType Domain.VECTOR; OBasic a; OBasic b; OBasic s; component].

Definition well_formed (self : t) : Prop :=
  Forall (fun kv => variable_definition kv.2) self.

(** The five type constants a definition starts with. *)
Definition variable_types : list Obj :=
  [OType Domain.INTEGER; OType Domain.REAL; OType Domain.CATEGORICAL;
   OType Domain.LAYER; OType Domain.VECTOR].

(** What a method that writes an element [definition] into the LAYER
    variable [layer_name] does on the register [self]. *)
Definition needs_a_layer (method : t -> outcome t)
    (layer_name element_name : string) (definition : Obj) (self : t) : Prop :=
  match get_variable_type layer_name self with
  | Raises e => e = KeyError /\ method self = Raises KeyError
  | Returns (OType Domain.LAYER) =>
      exists self',
        method self = Returns self'
        /\ get_layer_element_definition layer_name element_name self'
           = Returns definition
        /\ get_variable_list self' = get_variable_list self
  | Returns _ => method self = Raises TypeError
  end.

(** What a method that sets the component [definition] of the VECTOR
    variable [vector_variable_name] does on the register [self]. *)
Definition needs_a_vector (method : t -> outcome t)
    (vector_variable_name : string) (definition : Obj) (self : t) : Prop :=
  match get_variable_type vector_variable_name self with
  | Raises e => e = KeyError /\ method self = Raises KeyError
  | Returns (OType Domain.VECTOR) =>
      exists self',
        method self = Returns self'
        /\ get_vector_component_definition vector_variable_name self'
           = Returns definition
        /\ get_variable_list self' = get_variable_list self
  | Returns _ => method self = Raises IndexError
  end.

(** What a method that writes an element [definition] into the LAYER
    component of the VECTOR variable [vector_variable_name] does on the
    register [self]. *)
Definition needs_a_layer_component (method : t -> outcome t)
    (vector_variable_name element_name : string) (definition : Obj)
    (self : t) : Prop :=
  match get_variable_type vector_variable_name self with
  | Raises e => e = KeyError /\ method self = Raises KeyError
  | Returns (OType Domain.VECTOR) =>
      match get_vector_component_type vector_variable_name self with
      | Raises e => e = KeyError /\ method self = Raises KeyError
      | Returns (OType Domain.LAYER) =>
          exists self',
            method self = Returns self'
            /\ get_vector_layer_element_definition vector_variable_name
                 element_name self' = Returns definition
            /\ get_variable_list self' = get_variable_list self
      | Returns _ => method self = Raises TypeError
      end
  | Returns _ => method self = Raises IndexError
  end.

End ProblemDefinition.

(** ** The error taxonomy of the design document (kinds, not classes) *)
Inductive error_kind : Type :=
  | definition_error
  | domain_value_error
  | structural_error
  | untyped_failure.

Definition kind_of (e : exn) : error_kind :=
  match e with
  | DefinitionError => definition_error
  | DomainError | ValueError => domain_value_error
  | SolutionError => structural_error
  | AssertionError | IndexError | TypeError | UnboundLocalError
  | AttributeError | OverflowError | KeyError => untyped_failure
  end.

Import Domain Solution.

(** ** Properties and examples *)

(** The float literal [0.1]: the double nearest to one tenth. *)
Definition float_0_1 : Q := 3602879701896397 # 36028797018963968.

(** The example domain of [pycvoa/use_cases/domains/support_domain.py].
    The other float literals of the file, [0.0], [0.5], [1.0], [1.5] and
    [3.0], are the numbers they read. *)
Definition example_domain : Domain.t :=
  {| definitions :=
       <["I" := BasicVar (IntegerDef 0 100 None)]>
       (<["R" := BasicVar (RealDef (0 # 1) (1 # 1) None)]>
       (<["C" := BasicVar (CategoricalDef
                  [PyStr "C1"; PyStr "C2"; PyStr "C3"; PyStr "C4"])]>
       (<["L" := LayerVar
                  (<["EI" := IntegerDef 0 100 None]>
                  (<["ER" := RealDef (3 # 2) (3 # 1) None]>
                  (<["EC" := CategoricalDef
                               [PyStr "Lb1"; PyStr "Lb2"; PyStr "Lb3"]]> ∅)))]>
       (<["VN" := VectorVar 2 8 None UndefinedComponents]>
       (<["VI" := VectorVar 10 30 None
                    (BasicComponents (IntegerDef 1 10 None))]>
       (<["VR" := VectorVar 1 10 None
                    (BasicComponents (RealDef (0 # 1) float_0_1 None))]>
       (<["VC" := VectorVar 10 15 None
                    (BasicComponents (CategoricalDef
                       [PyStr "V1"; PyStr "V2"; PyStr "V3"]))]>
       (<["VL" := VectorVar 2 4 None
                    (LayerComponents
                       (<["el1" := IntegerDef 10 20 None]>
                       (<["el2" := RealDef float_0_1 (1 # 2) None]>
                       (<["el3" := CategoricalDef
                                     [PyInt 1; PyInt 2; PyInt 3]]> ∅))))]>
        ∅)))))))) |}.

(** [Solution(domain=example_domain)] *)
Definition example_solution : Solution.t := __init__ false (Some example_domain).

(** [add_basic_component] called once for each value of a list, in order:
    the Solution at the end and what each call returned or raised. *)
Fixpoint add_all (x : string) (values : list Basic) (domain : OptDomain)
    (self : Solution.t) : Solution.t * list (result Z) :=
  match values with
  | [] => (self, [])
  | v :: values' =>
      let (self1, r) := add_basic_component x v domain self in
      let (self2, rs) := add_all x values' domain self1 in
      (self2, r :: rs)
  end.

(** The number of components of a vector of the store, 0 while the
    variable is unassigned. *)
Definition vector_size (x : string) (self : Solution.t) : Z :=
  match dict_get x (__variables self) with
  | Some (VList l) => len l
  | _ => 0
  end.

(** A vector of integers in [[1, 10]] with room for two components, and one
    declared with [max_size = 0]. *)
Definition capacity_domain : Domain.t :=
  {| definitions :=
       <["V" := VectorVar 0 2 None (BasicComponents (IntegerDef 1 10 None))]>
       (<["Z" := VectorVar 0 0 None (BasicComponents (IntegerDef 1 10 None))]>
        ∅) |}.

(** A vector of at most four layers with the elements [a] and [b]. *)
Definition ab_domain : Domain.t :=
  {| definitions :=
       <["VL" := VectorVar 0 4 None
                   (LayerComponents
                      (<["a" := IntegerDef 0 9 None]>
                      (<["b" := IntegerDef 0 9 None]> ∅)))]> ∅ |}.

(** The [index]-th component of the vector [x] is assigned. *)
Definition populated (x : string) (index : Z) (self : Solution.t) : bool :=
  match dict_get x (__variables self) with
  | Some (VList l) => (0 <=? index) && (index <? len l)
  | _ => false
  end.

(** Solutions bound to the example domain whose store is given: no call
    of the interface stores a value, so that a store that holds one is
    written from outside the class, as [s._Solution__variables] allows.
    The stores are [{"VI": [3]}], [{"VI": []}], [{"VI": [3, 4]}] and
    [{"VL": [{"el1": 10}]}]. *)
Definition one_integer : Solution.t :=
  with_variables example_solution [("VI", VList [VBasic (PyInt 3)])].
Definition emptied : Solution.t :=
  with_variables example_solution [("VI", VList [])].
Definition one_layer : Solution.t :=
  with_variables example_solution
    [("VL", VList [VDict [("el1", VBasic (PyInt 10))]])].


Definition with_fitness (self : Solution.t) (f : Q) : Solution.t :=
  {| __domain := __domain self;
     __variables := __variables self;
     discovery_iteration := discovery_iteration self;
     fitness := f |}.

(** The example Solution with the stores [{"I": 5}], [{"I": 1, "R": 0.5}]
    and [{"I": 2, "R": 0.5}]. *)
Definition with_I_5 : Solution.t :=
  with_variables example_solution [("I", VBasic (PyInt 5))].

(** The variable a call addresses. *)
Definition target (c : call) : string :=
  match c with
  | Set_basic x _ | Set_layer x _ | Set_element x _ _ | Set_basic_vector x _
  | Add_basic_component x _ | Insert_basic_component x _ _
  | Set_basic_component x _ _ | Set_layer_vector x _
  | Add_layer_component x _ | Insert_layer_component x _ _
  | Set_layer_component x _ _ | Add_element_to_layer_component x _ _
  | Insert_element_to_layer_component x _ _ _
  | Set_element_of_layer_component x _ _ _
  | Remove_component x | Delete_component x _
  | Check_variable_type x _ | Check_component_type x _
  | Is_available_element x _ | Is_available_component x _
  | Is_available_component_element x _ _
  | Get_basic_value x | Get_element_value x _
  | Get_basic_component_value x _ | Get_layer_component_value x _ _
  | Get_vector_size x => x
  end.

(** The Solution after a sequence of calls, each with the per-call domain
    it is paired with, whatever each of them returned or raised. *)
Definition run_all (cs : list (call * OptDomain)) (self : Solution.t)
  : Solution.t :=
  foldl (fun s c => fst (run (fst c) (snd c) s)) self cs.

(** ** Proof tools *)

Ltac unfold_py :=
  unfold returning, on_variables, assign, bind, lift, ret, raise, get, put,
    rbind in *.

Ltac unfold_methods :=
  unfold run, set_basic, set_layer, set_element, set_basic_vector,
    add_basic_component, insert_basic_component, set_basic_component,
    set_layer_vector, add_layer_component, insert_layer_component,
    set_layer_component, add_element_to_layer_component,
    insert_element_to_layer_component, set_element_of_layer_component,
    remove_component, delete_component, check_variable_type,
    check_component_type, is_available_element, is_available_component,
    is_available_component_element, get_basic_value, get_element_value,
    get_basic_component_value, get_layer_component_value, get_vector_size,
    __put_basic, __put_layer, __put_element, problem_ctrl_dom.unbound in *.

Ltac unfold_checks :=
  unfold problem_ctrl_dom.basic_variable,
    problem_ctrl_dom.layer_variable_element,
    problem_ctrl_dom.basic_vector_variable,
    problem_ctrl_dom.__check_variable_type,
    problem_ctrl_dom.__check_component_type,
    problem_ctrl_dom.named_in_message in *.

Ltac unfold_domain :=
  unfold check_basic, check_element, check_vector_basic_value,
    check_vector_layer_element_value, check_vector_values_size,
    check_vector_basic_values, get_remaining_available_basic_components,
    get_remaining_available_complete_components,
    get_remaining_available_layer_components, get_variable_type,
    get_vector_components_type, is_defined_element in *.

(** ** Generic facts *)

Lemma dict_get_set_eq {V} k (v : V) d : dict_get k (dict_set k v d) = Some v.
Proof.
  induction d as [|[k' v'] d IH]; simpl.
  - by rewrite String.eqb_refl.
  - destruct (String.eqb k' k) eqn:E; simpl; by rewrite E.
Qed.

Lemma dict_get_set_ne {V} k k' (v : V) d :
  k <> k' -> dict_get k' (dict_set k v d) = dict_get k' d.
Proof.
  intros Hne. induction d as [|[k0 v0] d IH]; simpl.
  - destruct (String.eqb_spec k k'); [done | done].
  - destruct (String.eqb_spec k0 k) as [->|Hk]; simpl.
    + destruct (String.eqb_spec k k'); [done | done].
    + by rewrite IH.
Qed.

Lemma dict_mem_set {V} k (v : V) d : dict_mem k (dict_set k v d) = true.
Proof. unfold dict_mem. by rewrite dict_get_set_eq. Qed.

Lemma with_variables_id self : with_variables self (__variables self) = self.
Proof. by destruct self. Qed.

Lemma len_nonneg {A} (l : list A) : 0 <= len l.
Proof. unfold len. lia. Qed.


Lemma py_pos_Some n i j :
  py_pos n i = Some j -> (j < Z.to_nat n)%nat.
Proof.
  unfold py_pos. destruct (i <? 0) eqn:Hi; intros H;
    destruct (_ || _) eqn:E; simplify_eq;
    apply orb_false_iff in E as [E1 E2]; lia.
Qed.

Lemma py_pos_in_range n i :
  0 <= i < n -> py_pos n i = Some (Z.to_nat i).
Proof.
  intros [H0 Hn]. unfold py_pos.
  destruct (Z.ltb_spec i 0); [lia|].
  destruct (Z.ltb_spec i 0); [lia|].
  destruct (Z.leb_spec n i); [lia|]. done.
Qed.

Lemma dict_keys_set {V} k (v : V) d :
  dict_keys (dict_set k v d)
  = if dict_mem k d then dict_keys d else dict_keys d ++ [k].
Proof.
  unfold dict_mem, dict_keys. induction d as [|[k' v'] d IH]; cbn; [done|].
  destruct (String.eqb_spec k' k); cbn; [done|].
  rewrite IH. by destruct (dict_get k d).
Qed.


Lemma py_getitem_in_range {A} (l : list A) i :
  0 <= i < len l -> py_getitem l i = match l !! Z.to_nat i with
                                    | Some a => Ok a
                                    | None => Raise IndexError
                                    end.
Proof. intros Hi. unfold py_getitem. by rewrite py_pos_in_range. Qed.


(** ** The resolver of the two generations *)

Lemma get_valid_domain_generations ext int d :
  problem_ctrl_dom.get_valid_domain ext int = Ok d
  <-> ctrl_dom.get_valid_domain ext int = Ok d.
Proof. by destruct ext, int. Qed.

(** ** What a call leaves as it was *)

(** C10. Every call of the store, the mutations among them, returns the
    Solution with its [fitness], its [discovery_iteration] and its bound
    domain as they were: only the variable-to-value mapping can differ. *)
Theorem mutation_frame c domain self :
  fitness (fst (run c domain self)) = fitness self
  /\ discovery_iteration (fst (run c domain self)) = discovery_iteration self
  /\ fst (run c domain self)
     = with_variables self (__variables (fst (run c domain self))).
Proof.
  destruct self as [dom vars it fit].
  destruct c; unfold_methods; unfold_py; cbn; try done;
    repeat (case_match; cbn; simplify_eq; try done).
Qed.

(** ** The names [Solution] asks [ctrl_dom] for *)

(** The first statement of a setter, and of seven of the queries, looks up
    a name that the imported module does not define. *)
Lemma run_unbound c domain self :
  asks_for_an_unbound_name c = true ->
  run c domain self = (self, Raise AttributeError).
Proof.
  destruct self as [dom vars it fit]. by destruct c.
Qed.

Lemma run_bound_external_wins c d b self :
  asks_for_an_unbound_name c = false ->
  snd (run c (Some d) (set_domain b self))
  = snd (run c None (set_domain (Some d) self))
  /\ __variables (fst (run c (Some d) (set_domain b self)))
     = __variables (fst (run c None (set_domain (Some d) self))).
Proof.
  destruct self as [dom vars it fit].
  destruct c; try discriminate; intros _;
    unfold_methods; unfold_checks; unfold_py; cbn;
    repeat (case_match; cbn; simplify_eq; try done).
Qed.

Lemma run_bound_without_domain c self :
  asks_for_an_unbound_name c = false ->
  run c None (set_domain None self) = (set_domain None self, Raise ValueError).
Proof. destruct c; try discriminate; by intros _. Qed.

(** C3 (the code departs from it). The fourteen setters and seven of the
    queries do not resolve an active domain: their first statement asks the
    imported [ctrl_dom] for a name it does not define, and the call raises
    [AttributeError], an untyped failure, whatever domain is given with the
    call or bound to the Solution, and when there is neither. *)
Theorem unbound_names_come_before_the_domain :
  (forall c domain self,
      asks_for_an_unbound_name c = true ->
      run c domain self = (self, Raise AttributeError))
  /\ set_basic "I" (PyInt 5) (Some example_domain) (__init__ false None)
     = (__init__ false None, Raise AttributeError)
  /\ set_basic "I" (PyInt 5) None example_solution
     = (example_solution, Raise AttributeError)
  /\ set_basic "I" (PyInt 5) None (__init__ false None)
     = (__init__ false None, Raise AttributeError)
  /\ kind_of AttributeError = untyped_failure
  /\ untyped_failure <> domain_value_error.
Proof.
  split; [exact run_unbound|]. repeat split. discriminate.
Qed.

Lemma unbound_names_come_before_the_domain_witness :
  run (Set_layer_vector "VL" [[("el1", PyInt 10)]]) (Some example_domain)
    (__init__ false None)
  = (__init__ false None, Raise AttributeError)
  /\ run (Get_vector_size "VI") None one_integer
     = (one_integer, Raise AttributeError).
Proof.
  destruct unbound_names_come_before_the_domain as [H _]. split.
  - apply (H (Set_layer_vector "VL" [[("el1", PyInt 10)]])). reflexivity.
  - apply (H (Get_vector_size "VI")). reflexivity.
Defined.

(** ** Reading a variable *)

Lemma get_basic_value_spec x domain self d :
  ctrl_dom.get_valid_domain domain (__domain self) = Ok d ->
  get_basic_value x domain self
  = (self,
     match definitions d !! x with
     | Some (BasicVar _) =>
         if dict_mem x (__variables self)
         then Ok (dict_get x (__variables self))
         else Raise SolutionError
     | Some _ => Raise ValueError
     | None => Raise DefinitionError
     end).
Proof.
  intros Hd%get_valid_domain_generations.
  unfold get_basic_value, problem_ctrl_dom.basic_variable,
    problem_ctrl_dom.__check_variable_type. unfold_py.
  rewrite Hd. unfold get_variable_type, ctrl_sol.is_assigned_variable.
  destruct (definitions d !! x) as [[[]| |]|]; cbn; try done;
    by destruct (dict_mem x (__variables self)).
Qed.

(** C5. [get_basic_value] on a variable that the active domain declares as
    BASIC but that the Solution never assigned raises [SolutionError], a
    structural error; on a variable that the active domain does not declare
    it raises [DefinitionError], a definition error; the two are different
    exceptions of different kinds, and neither call touches the Solution. *)
Theorem unassigned_and_undeclared_reads :
  (forall x domain self d def,
      ctrl_dom.get_valid_domain domain (__domain self) = Ok d ->
      definitions d !! x = Some (BasicVar def) ->
      dict_mem x (__variables self) = false ->
      get_basic_value x domain self = (self, Raise SolutionError))
  /\ (forall x domain self d,
        ctrl_dom.get_valid_domain domain (__domain self) = Ok d ->
        definitions d !! x = None ->
        get_basic_value x domain self = (self, Raise DefinitionError))
  /\ SolutionError <> DefinitionError
  /\ kind_of SolutionError = structural_error
  /\ kind_of DefinitionError = definition_error
  /\ structural_error <> definition_error.
Proof.
  repeat split; try done.
  - intros x domain self d def Hd Hx Hm.
    rewrite (get_basic_value_spec _ _ _ _ Hd), Hx, Hm. done.
  - intros x domain self d Hd Hx.
    rewrite (get_basic_value_spec _ _ _ _ Hd), Hx. done.
Qed.

Lemma unassigned_and_undeclared_reads_witness :
  get_basic_value "I" None example_solution
  = (example_solution, Raise SolutionError)
  /\ get_basic_value "X" None example_solution
     = (example_solution, Raise DefinitionError).
Proof.
  destruct unassigned_and_undeclared_reads as [H1 [H2 _]]. split.
  - apply (H1 "I" None example_solution example_domain (IntegerDef 0 100 None));
      reflexivity.
  - apply (H2 "X" None example_solution example_domain); reflexivity.
Defined.

(** ** Appending to a scalar vector *)

Lemma add_all_unbound x values domain self :
  add_all x values domain self
  = (self, map (fun _ => Raise AttributeError) values).
Proof.
  induction values as [|v values IH]; cbn [add_all map]; [done|].
  assert (E : add_basic_component x v domain self
              = (self, Raise AttributeError))
    by (by destruct self).
  by rewrite E, IH.
Qed.

(** C1 (the code departs from it). No append to a scalar vector succeeds:
    [__put_basic] opens with [ctrl_dom.check_basic_vector_value], which the
    imported module does not define, so that [add_basic_component] raises
    [AttributeError] and leaves the vector as it was, whatever the vector,
    the value and the domain; of three appends of accepted values to the
    unassigned vector [V], declared with [max_size = 2], none succeeds and
    the vector stays unassigned. *)
Theorem no_append_succeeds :
  (forall x v domain self,
      add_basic_component x v domain self = (self, Raise AttributeError))
  /\ (forall x values domain self,
        add_all x values domain self
        = (self, map (fun _ => Raise AttributeError) values))
  /\ add_all "V" [PyInt 1; PyInt 2; PyInt 3] None
       (__init__ false (Some capacity_domain))
     = (__init__ false (Some capacity_domain),
        [Raise AttributeError; Raise AttributeError; Raise AttributeError])
  /\ check_vector_basic_value capacity_domain "V" (PyInt 1) = Ok true
  /\ dict_mem "V" (__variables (__init__ false (Some capacity_domain))) = false
  /\ kind_of AttributeError = untyped_failure.
Proof.
  split; [by intros x v domain []|]. split; [exact add_all_unbound|].
  repeat split.
Qed.

(** ** Appending an element to a vector of layers *)

(** C2 (the code departs from it). No element-level append writes to a
    vector of layers: [__put_element] opens with
    [ctrl_dom.check_layer_vector_element], which the imported module does
    not define, so that [add_element_to_layer_component] raises
    [AttributeError] and leaves the store as it was.  In the scenario of a
    layer with the elements [a] and [b], appending [a] to the fresh vector
    creates no component 0, and on a vector whose only component holds [a]
    appending [b] does not fill it. *)
Theorem no_element_append_succeeds :
  (forall x e v domain self,
      add_element_to_layer_component x e v domain self
      = (self, Raise AttributeError))
  /\ add_element_to_layer_component "VL" "a" (PyInt 1) None
       (__init__ false (Some ab_domain))
     = (__init__ false (Some ab_domain), Raise AttributeError)
  /\ check_vector_layer_element_value ab_domain "VL" "a" (PyInt 1) = Ok true
  /\ dict_mem "VL" (__variables (__init__ false (Some ab_domain))) = false
  /\ add_element_to_layer_component "VL" "b" (PyInt 2) None
       (with_variables (__init__ false (Some ab_domain))
          [("VL", VList [VDict [("a", VBasic (PyInt 1))]])])
     = (with_variables (__init__ false (Some ab_domain))
          [("VL", VList [VDict [("a", VBasic (PyInt 1))]])],
        Raise AttributeError).
Proof.
  split; [by intros x e v domain []|]. repeat split.
Qed.

(** ** Setting a component in place *)

(** C6 (the code departs from it). [set_basic_component] and
    [set_layer_component] refuse every call, and not with a structural
    error: each opens with a [ctrl_dom] check that the imported module does
    not define and raises [AttributeError], an untyped failure, whether the
    position is populated or not.  The vector is never extended, for the
    store is never written. *)
Theorem set_component_raises_attribute_error :
  (forall x index v domain self,
      set_basic_component x index v domain self
      = (self, Raise AttributeError))
  /\ (forall x index layer domain self,
        set_layer_component x index layer domain self
        = (self, Raise AttributeError))
  /\ populated "VI" 0 example_solution = false
  /\ set_basic_component "VI" 0 (PyInt 4) None example_solution
     = (example_solution, Raise AttributeError)
  /\ set_layer_component "VL" 0 [("el1", PyInt 10)] None example_solution
     = (example_solution, Raise AttributeError)
  /\ populated "VI" 1 one_integer = false
  /\ set_basic_component "VI" 1 (PyInt 4) None one_integer
     = (one_integer, Raise AttributeError)
  /\ populated "VI" 0 one_integer = true
  /\ set_basic_component "VI" 0 (PyInt 4) None one_integer
     = (one_integer, Raise AttributeError)
  /\ check_vector_basic_value example_domain "VI" (PyInt 4) = Ok true
  /\ kind_of AttributeError = untyped_failure
  /\ untyped_failure <> structural_error.
Proof.
  split; [by intros x index v domain []|].
  split; [by intros x index layer domain []|].
  repeat split. discriminate.
Qed.

(** ** Removing components *)

Lemma remove_component_unassigned x domain self d :
  ctrl_dom.get_valid_domain domain (__domain self) = Ok d ->
  dict_mem x (__variables self) = false ->
  remove_component x domain self = (self, Raise SolutionError).
Proof.
  intros Hd%get_valid_domain_generations Hm.
  unfold remove_component, ctrl_sol.is_assigned_variable.
  unfold_py. by rewrite Hd, Hm.
Qed.

Lemma delete_component_unassigned x index domain self d :
  ctrl_dom.get_valid_domain domain (__domain self) = Ok d ->
  dict_mem x (__variables self) = false ->
  delete_component x index domain self = (self, Raise SolutionError).
Proof.
  intros Hd%get_valid_domain_generations Hm.
  unfold delete_component, ctrl_sol.is_assigned_variable.
  unfold_py. by rewrite Hd, Hm.
Qed.

Lemma delete_component_empty x index domain self d lo hi st comp :
  ctrl_dom.get_valid_domain domain (__domain self) = Ok d ->
  definitions d !! x = Some (VectorVar lo hi st comp) ->
  dict_get x (__variables self) = Some (VList []) ->
  delete_component x index domain self = (self, Raise SolutionError).
Proof.
  intros Hd%get_valid_domain_generations Hx Hl.
  unfold delete_component, ctrl_sol.is_assigned_variable,
    ctrl_sol.assigned_vector_removal_available, ctrl_sol.is_assigned_variable,
    ctrl_sol.is_assigned_component, get_remaining_available_basic_components.
  unfold_py. rewrite Hd. unfold dict_mem. rewrite Hl, Hx. cbn.
  destruct (hi - len [] <? 0); cbn; [done|].
  destruct (Z.ltb_spec index 0); cbn; [done|].
  unfold len. cbn [length].
  destruct (Z.leb_spec (Z.of_nat 0) index); [done|lia].
Qed.

(** The removal guard compares the remaining capacity, which is
    [max_size] on an empty vector, with 0: it lets the empty vector
    through and [list.pop] raises. *)
Lemma remove_component_empty x domain self d lo hi st comp :
  ctrl_dom.get_valid_domain domain (__domain self) = Ok d ->
  definitions d !! x = Some (VectorVar lo hi st comp) ->
  0 <= hi ->
  dict_get x (__variables self) = Some (VList []) ->
  remove_component x domain self = (self, Raise IndexError).
Proof.
  intros Hd%get_valid_domain_generations Hx Hhi Hl.
  unfold remove_component, ctrl_sol.is_assigned_variable,
    ctrl_sol.assigned_vector_removal_available, ctrl_sol.is_assigned_variable,
    get_remaining_available_basic_components.
  unfold_py. rewrite Hd. unfold dict_mem. rewrite Hl, Hx. cbn.
  unfold len. cbn [length].
  destruct (Z.ltb_spec (hi - Z.of_nat 0) 0); [lia|]. done.
Qed.


(** ** Reading back what was written *)

(** C8 (the code departs from it). Nothing written can be read back, for
    nothing is written: [set_basic], [set_element] and
    [set_basic_component] each open with a [ctrl_dom] check that the
    imported module does not define and raise [AttributeError], the store
    as it was, and the getter that follows finds no value.  After
    [set_basic("I", 5)] on the example Solution, 5 being accepted for [I],
    [get_basic_value("I")] raises [SolutionError]. *)
Theorem nothing_is_written_to_read_back :
  (forall x v domain self,
      set_basic x v domain self = (self, Raise AttributeError))
  /\ (forall x e v domain self,
        set_element x e v domain self = (self, Raise AttributeError))
  /\ (forall x index v domain self,
        set_basic_component x index v domain self
        = (self, Raise AttributeError))
  /\ check_basic example_domain "I" (PyInt 5) = Ok true
  /\ get_basic_value "I" None
       (fst (set_basic "I" (PyInt 5) None example_solution))
     = (example_solution, Raise SolutionError)
  /\ check_vector_basic_value example_domain "VI" (PyInt 3) = Ok true
  /\ get_basic_component_value "VI" 0 None
       (fst (set_basic_component "VI" 0 (PyInt 3) None example_solution))
     = (example_solution, Raise TypeError).
Proof.
  split; [by intros x v domain []|].
  split; [by intros x e v domain []|].
  split; [by intros x index v domain []|].
  repeat split.
Qed.

(** ** Equality of Solutions *)

Lemma land_bool_bound n (res : bool) :
  0 <= n -> 0 <= Z.land n (Z.b2z res) <= 1.
Proof.
  intros Hn. destruct res; cbn [Z.b2z].
  - assert (E : Z.land n 1 = n mod 2) by exact (Z.land_ones n 1 Z.le_0_1).
    rewrite E. pose proof (Z.mod_pos_bound n 2). lia.
  - rewrite Z.land_0_r. lia.
Qed.

(** The loop of [__eq__] ends within the fuel [__eq__] gives it. *)
Lemma eq_loop_total fuel self other keys i res :
  0 <= i ->
  (1 <= fuel)%nat \/ keys = [] \/ 1 <= i ->
  exists r, eq_loop fuel self other keys i res = Some r.
Proof.
  intros Hi Hfuel.
  pose proof (land_bool_bound (len keys) res (len_nonneg keys)) as Hb.
  destruct fuel as [|fuel]; cbn [eq_loop].
  - destruct (Z.ltb_spec i (Z.land (len keys) (Z.b2z res))); [|by eexists].
    assert (keys = []) as -> by (destruct Hfuel as [?|[?|?]]; [lia|done|lia]).
    change (Z.land (len []) (Z.b2z res)) with 0 in H. lia.
  - destruct (Z.ltb_spec i (Z.land (len keys) (Z.b2z res))); [|by eexists].
    destruct (py_getitem keys i) as [key|]; [|by eexists].
    destruct (get_basic_value key None self).2; [|by eexists].
    destruct (get_basic_value key None other).2; [|by eexists].
    destruct fuel; cbn [eq_loop].
    + set (res' := if py_ne _ _ then false else res).
      pose proof (land_bool_bound (len keys) res' (len_nonneg keys)).
      destruct (Z.ltb_spec (i + 1) (Z.land (len keys) (Z.b2z res'))); [lia|].
      by eexists.
    + set (res' := if py_ne _ _ then false else res).
      pose proof (land_bool_bound (len keys) res' (len_nonneg keys)).
      destruct (Z.ltb_spec (i + 1) (Z.land (len keys) (Z.b2z res'))); [lia|].
      by eexists.
Qed.

Lemma __eq___total self other : exists r, __eq__ self other = Some r.
Proof.
  destruct other as [other|]; [|by eexists]. unfold __eq__.
  apply eq_loop_total; [lia|].
  destruct (dict_keys (__variables self)); [by right; left|].
  left. cbn. lia.
Qed.

(** With an even number of keys in [self] the loop body never runs: [==]
    answers [True] whatever the two Solutions hold. *)
Lemma __eq___even_keys self other :
  Z.even (len (dict_keys (__variables self))) = true ->
  __eq__ self (a_Solution other) = Some (Ok true).
Proof.
  intros Heven. unfold __eq__.
  assert (E : Z.land (len (dict_keys (__variables self))) (Z.b2z true) = 0).
  { cbn [Z.b2z]. rewrite (Z.land_ones _ 1 Z.le_0_1).
    apply Z.even_spec in Heven as [m ->]. change (2 ^ 1) with 2.
    rewrite Z.mul_comm. apply Z.mod_mul. lia. }
  destruct (length _); cbn [eq_loop]; by rewrite E.
Qed.

(** [!=] is the negation of [==], and neither reads the fitness. *)
Lemma __ne___negates self other res :
  __eq__ self other = Some (Ok res) ->
  __ne__ self other = Some (Ok (negb res)).
Proof. intros H. unfold __ne__. by rewrite H. Qed.

Lemma __eq___ignores_fitness self other f g :
  __eq__ (with_fitness self f) (a_Solution (with_fitness other g))
  = __eq__ self (a_Solution other).
Proof.
  unfold __eq__. cbn [__variables with_fitness].
  generalize (length (dict_keys (__variables self))) as fuel.
  generalize (dict_keys (__variables self)) as keys.
  generalize 0 as i. generalize true as res.
  intros res i keys fuel. revert i res.
  induction fuel as [|fuel IH]; intros i res; cbn [eq_loop]; [done|].
  destruct (i <? _); [|done].
  destruct (py_getitem keys i) as [key|]; [|done].
  assert (Hs : forall s h, snd (get_basic_value key None (with_fitness s h))
                           = snd (get_basic_value key None s)).
  { intros s h. unfold get_basic_value. unfold_py. cbn.
    repeat (case_match; cbn; simplify_eq; try done). }
  rewrite !Hs.
  destruct (get_basic_value key None self).2; [|done].
  destruct (get_basic_value key None other).2; [|done].
  apply IH.
Qed.



(** ** Errors and the store *)

(** C4. A call that raises leaves the Solution as it was, the store
    included: a setter, an append or an insert stops at its first
    statement, before any write, and [remove_component] and
    [delete_component] write as their last step, after every check and
    after [list.pop] or [del] went through. *)
Theorem a_raising_call_writes_nothing c domain self e :
  snd (run c domain self) = Raise e ->
  fst (run c domain self) = self.
Proof.
  destruct (asks_for_an_unbound_name c) eqn:Hc.
  - intros _. by rewrite run_unbound.
  - destruct self as [dom vars it fit].
    destruct c; try discriminate;
      unfold_methods; unfold_checks; unfold_py; cbn; try done;
      repeat (case_match; cbn in *; simplify_eq; try done).
Qed.

Lemma a_raising_call_writes_nothing_witness :
  fst (run (Set_basic "I" (PyInt 150)) None example_solution)
  = example_solution
  /\ fst (run (Remove_component "VI") None emptied) = emptied
  /\ fst (run (Delete_component "VI" 1) None one_integer) = one_integer
  /\ fst (run (Add_element_to_layer_component "VL" "el1" (PyInt 10)) None
            example_solution)
     = example_solution.
Proof.
  split; [|split; [|split]].
  - exact (a_raising_call_writes_nothing
             (Set_basic "I" (PyInt 150)) None example_solution
             AttributeError eq_refl).
  - exact (a_raising_call_writes_nothing
             (Remove_component "VI") None emptied IndexError eq_refl).
  - exact (a_raising_call_writes_nothing
             (Delete_component "VI" 1) None one_integer SolutionError
             eq_refl).
  - exact (a_raising_call_writes_nothing
             (Add_element_to_layer_component "VL" "el1" (PyInt 10))
             None example_solution AttributeError eq_refl).
Defined.

(** ** Calls and the variables of the store *)

Lemma run_writes_target c domain self :
  __variables (fst (run c domain self)) = __variables self
  \/ exists value,
       __variables (fst (run c domain self))
       = dict_set (target c) value (__variables self).
Proof.
  destruct (asks_for_an_unbound_name c) eqn:Hc;
    [left; by rewrite run_unbound|].
  destruct self as [dom vars it fit].
  destruct c; try discriminate; cbn [target];
    unfold_methods; unfold_py; cbn; try (by left);
    repeat (case_match; cbn in *; simplify_eq; try (by left));
    right; eexists; reflexivity.
Qed.

(** X2. No call unassigns a variable or reorders the store: after a call
    the variables are those of before in the same order, with at most the
    addressed variable added at the end when it was not assigned. *)
Theorem call_keeps_the_variables c domain self :
  dict_keys (__variables (fst (run c domain self)))
  = dict_keys (__variables self)
  \/ (dict_mem (target c) (__variables self) = false
      /\ dict_keys (__variables (fst (run c domain self)))
         = dict_keys (__variables self) ++ [target c]).
Proof.
  destruct (run_writes_target c domain self) as [-> | [value ->]]; [by left|].
  rewrite dict_keys_set.
  destruct (dict_mem (target c) (__variables self)); [by left | by right].
Qed.


(** ** Shrinking a vector *)








(** ** What [==] looks at *)

Lemma land_one_odd n : 0 <= n -> Z.even n = false -> Z.land n (Z.b2z true) = 1.
Proof.
  intros Hn Hodd. cbn [Z.b2z]. rewrite (Z.land_ones _ 1 Z.le_0_1).
  change (2 ^ 1) with 2. rewrite Zmod_even, Hodd. done.
Qed.

Lemma eq_loop_exit fuel self other keys i res :
  (i <? Z.land (len keys) (Z.b2z res)) = false ->
  eq_loop fuel self other keys i res = Some (Ok res).
Proof. intros H. destruct fuel; cbn [eq_loop]; by rewrite H. Qed.

(** X13. [==] between two Solutions looks at no more than the first
    variable of the left one: with an even number of variables on the left
    it answers [True] without reading anything, and with an odd number it
    answers whether [get_basic_value] gives equal values for the left
    Solution's first variable in both, or raises what that getter raises;
    [!=] answers the opposite. *)
Theorem eq_reads_at_most_the_first_variable self other :
  __eq__ self (a_Solution other)
  = Some
      (if Z.even (len (dict_keys (__variables self))) then Ok true
       else match dict_keys (__variables self) with
            | [] => Ok true
            | key :: _ =>
                match snd (get_basic_value key None self) with
                | Raise e => Raise e
                | Ok vf =>
                    match snd (get_basic_value key None other) with
                    | Raise e => Raise e
                    | Ok vo => Ok (negb (py_ne vf vo))
                    end
                end
            end)
  /\ __ne__ self (a_Solution other)
     = match __eq__ self (a_Solution other) with
       | Some (Ok res) => Some (Ok (negb res))
       | r => r
       end.
Proof.
  split; [|reflexivity].
  destruct (Z.even (len (dict_keys (__variables self)))) eqn:Heven;
    [by apply __eq___even_keys|].
  unfold __eq__.
  destruct (dict_keys (__variables self)) as [|key keys] eqn:Hkeys; [done|].
  cbn [length eq_loop].
  rewrite (land_one_odd _ (len_nonneg _) Heven). cbn [Z.ltb Z.compare].
  change (py_getitem (key :: keys) 0) with (Ok (A:=string) key).
  cbv beta iota.
  destruct (get_basic_value key None self).2 as [vf|]; [|done].
  destruct (get_basic_value key None other).2 as [vo|]; [|done].
  set (res := if py_ne vf vo then false else true).
  assert (Hres : res = negb (py_ne vf vo)) by (subst res; by destruct (py_ne _ _)).
  pose proof (land_bool_bound (len (key :: keys)) res (len_nonneg _)) as Hb.
  rewrite eq_loop_exit; [by rewrite Hres|].
  apply Z.ltb_ge. lia.
Qed.


(** ** The definition checks of [pycvoa/control/domain.py] *)

(** X14. With an active domain, [is_defined_as_layer] passes exactly for a
    name declared as LAYER and [is_defined_as_vector_variable] exactly for
    a name declared as VECTOR whose component type has been set; every
    other name, the undeclared ones included, is reported with
    [DomainError]. *)
Theorem definition_checks_report_domain_errors x ext int d :
  ctrl_dom.get_valid_domain ext int = Ok d ->
  ctrl_dom.is_defined_as_layer x ext int
  = match definitions d !! x with
    | Some (LayerVar _) => Ok tt
    | _ => Raise DomainError
    end
  /\ ctrl_dom.is_defined_as_vector_variable x ext int
     = match definitions d !! x with
       | Some (VectorVar _ _ _ UndefinedComponents) => Raise DomainError
       | Some (VectorVar _ _ _ _) => Ok tt
       | _ => Raise DomainError
       end.
Proof.
  intros Hd.
  unfold ctrl_dom.is_defined_as_layer, ctrl_dom.is_defined_as_vector_variable,
    ctrl_dom.is_defined_variable, Domain.is_defined_variable,
    get_variable_type, are_defined_components.
  unfold_py. rewrite Hd.
  destruct (definitions d !! x) as [[def|els|lo hi st comp]|] eqn:Hx;
    cbn; rewrite ?Hx; cbn.
  - by destruct def.
  - done.
  - by destruct comp.
  - done.
Qed.

Lemma definition_checks_report_domain_errors_witness :
  ctrl_dom.is_defined_as_layer "L" None (Some example_domain) = Ok tt
  /\ ctrl_dom.is_defined_as_layer "nowhere" None (Some example_domain)
     = Raise DomainError
  /\ ctrl_dom.is_defined_as_vector_variable "VN" None (Some example_domain)
     = Raise DomainError
  /\ ctrl_dom.is_defined_as_vector_variable "VI" None (Some example_domain)
     = Ok tt.
Proof.
  destruct (definition_checks_report_domain_errors "L" None
              (Some example_domain) example_domain eq_refl) as [H1 _].
  destruct (definition_checks_report_domain_errors "nowhere" None
              (Some example_domain) example_domain eq_refl) as [H2 _].
  destruct (definition_checks_report_domain_errors "VN" None
              (Some example_domain) example_domain eq_refl) as [_ H3].
  destruct (definition_checks_report_domain_errors "VI" None
              (Some example_domain) example_domain eq_refl) as [_ H4].
  split; [exact H1|]. split; [exact H2|]. split; [exact H3 | exact H4].
Defined.

(** X15. [is_defined_as_layer_vector_variable] tests
    [not ... is not LAYER]: for a declared VECTOR it raises [DomainError]
    when the components are declared as LAYER and passes when they are
    declared as a scalar type. *)
Theorem layer_vector_check_is_inverted x ext int d lo hi st comp :
  ctrl_dom.get_valid_domain ext int = Ok d ->
  definitions d !! x = Some (VectorVar lo hi st comp) ->
  (forall elements,
      comp = LayerComponents elements ->
      ctrl_dom.is_defined_as_layer_vector_variable x ext int
      = Raise DomainError)
  /\ (forall def,
        comp = BasicComponents def ->
        ctrl_dom.is_defined_as_layer_vector_variable x ext int = Ok tt).
Proof.
  intros Hd Hx.
  unfold ctrl_dom.is_defined_as_layer_vector_variable,
    ctrl_dom.is_defined_variable, Domain.is_defined_variable,
    get_variable_type, get_vector_components_type.
  unfold_py. rewrite Hd, Hx. cbn. split.
  - intros elements ->. by rewrite ?Hx.
  - intros def ->. rewrite ?Hx. by destruct def.
Qed.

Lemma layer_vector_check_is_inverted_witness :
  ctrl_dom.is_defined_as_layer_vector_variable "VL" None (Some example_domain)
  = Raise DomainError
  /\ ctrl_dom.is_defined_as_layer_vector_variable "VI" None
       (Some example_domain) = Ok tt.
Proof.
  split.
  - destruct (layer_vector_check_is_inverted "VL" None (Some example_domain)
                example_domain 2 4 None
                (LayerComponents
                   (<["el1" := IntegerDef 10 20 None]>
                   (<["el2" := RealDef float_0_1 (1 # 2) None]>
                   (<["el3" := CategoricalDef
                                 [PyInt 1; PyInt 2; PyInt 3]]> ∅))))
                eq_refl eq_refl) as [H _].
    exact (H _ eq_refl).
  - destruct (layer_vector_check_is_inverted "VI" None (Some example_domain)
                example_domain 10 30 None
                (BasicComponents (IntegerDef 1 10 None)) eq_refl eq_refl)
      as [_ H].
    exact (H _ eq_refl).
Defined.


(** ** The two generations of the value checks *)




(** ** The two index checks of [pycvoa/problem/ctrl/solution.py] *)

Lemma py_pos_negative n i :
  - n <= i < 0 -> py_pos n i = Some (Z.to_nat (n + i)).
Proof.
  intros Hi. unfold py_pos.
  destruct (Z.ltb_spec i 0); [|lia].
  destruct (Z.ltb_spec (n + i) 0); [lia|].
  destruct (Z.leb_spec n (n + i)); [lia|]. done.
Qed.

Lemma py_pos_outside n i : n <= i \/ i < - n -> py_pos n i = None.
Proof.
  intros Hi. unfold py_pos.
  destruct (Z.ltb_spec i 0).
  - destruct (Z.ltb_spec (n + i) 0); [done|].
    destruct (Z.leb_spec n (n + i)); [done|lia].
  - destruct (Z.ltb_spec i 0); [lia|].
    destruct (Z.leb_spec n i); [done|lia].
Qed.

(** X17. The two index checks disagree outside [[0, len)]:
    [is_assigned_component] refuses every such index with [SolutionError],
    while [is_assigned_component_element] uses the index as it comes, so a
    negative index down to [-len] addresses the component counted from the
    end, and an index beyond the vector fails with [IndexError]. *)
Theorem index_checks_disagree x index e vars l :
  dict_get x vars = Some (VList l) ->
  (index < 0 \/ len l <= index ->
   ctrl_sol.is_assigned_component x index vars = Raise SolutionError)
  /\ (len l <= index \/ index < - len l ->
      ctrl_sol.is_assigned_component_element x index e vars
      = Raise IndexError)
  /\ (forall layer,
        - len l <= index < 0 ->
        l !! Z.to_nat (len l + index) = Some (VDict layer) ->
        ctrl_sol.is_assigned_component_element x index e vars
        = if dict_mem e layer then Ok tt else Raise SolutionError).
Proof.
  intros Hl. split; [|split].
  - intros Hi. unfold ctrl_sol.is_assigned_component. unfold_py. rewrite Hl.
    destruct (Z.ltb_spec index 0); [done|]. cbn.
    destruct (Z.leb_spec (len l) index); [done|lia].
  - intros Hi. unfold ctrl_sol.is_assigned_component_element. unfold_py.
    rewrite Hl. cbn. unfold py_getitem. by rewrite py_pos_outside.
  - intros layer Hi Hcomp.
    unfold ctrl_sol.is_assigned_component_element. unfold_py.
    rewrite Hl. cbn. unfold py_getitem.
    rewrite py_pos_negative, Hcomp by done. cbn.
    by destruct (dict_mem e layer).
Qed.

Lemma index_checks_disagree_witness :
  ctrl_sol.is_assigned_component "VL" (-1) (__variables one_layer)
  = Raise SolutionError
  /\ ctrl_sol.is_assigned_component_element "VL" (-1) "el1"
       (__variables one_layer) = Ok tt
  /\ ctrl_sol.is_assigned_component_element "VL" 1 "el1"
       (__variables one_layer) = Raise IndexError.
Proof.
  destruct (index_checks_disagree "VL" (-1) "el1" (__variables one_layer)
              [VDict [("el1", VBasic (PyInt 10))]] eq_refl) as [H1 [_ H2]].
  destruct (index_checks_disagree "VL" 1 "el1" (__variables one_layer)
              [VDict [("el1", VBasic (PyInt 10))]] eq_refl) as [_ [H3 _]].
  split; [|split].
  - apply H1. left. lia.
  - apply (H2 [("el1", VBasic (PyInt 10))]); [unfold len; cbn; lia|].
    reflexivity.
  - apply H3. left. unfold len. cbn. lia.
Defined.

(** ** The store behind the interface *)

Lemma run_on_the_empty_store c domain self :
  __variables self = [] -> fst (run c domain self) = self.
Proof.
  destruct (asks_for_an_unbound_name c) eqn:Hc.
  - intros _. by rewrite run_unbound.
  - destruct self as [dom vars it fit]. cbn [__variables]. intros ->.
    destruct c; try discriminate;
      unfold_methods; unfold_checks; unfold_py; cbn; try done;
      repeat (case_match; cbn in *; simplify_eq; try done).
Qed.

(** X22. No sequence of calls assigns a variable: after any calls of the
    methods that take [domain] ([set_value] and [get_value] apart), with
    any per-call domains, a Solution is the one its constructor built, its
    store empty; so [is_available] answers [False] for every name and any
    two Solutions built this way compare equal. *)
Theorem the_interface_never_assigns best domain cs :
  run_all cs (__init__ best domain) = __init__ best domain
  /\ __variables (run_all cs (__init__ best domain)) = []
  /\ (forall x, is_available x (run_all cs (__init__ best domain)) = false)
  /\ (forall best' domain' cs',
        __eq__ (run_all cs (__init__ best domain))
          (a_Solution (run_all cs' (__init__ best' domain')))
        = Some (Ok true)).
Proof.
  assert (E : forall b d l, run_all l (__init__ b d) = __init__ b d).
  { intros b d l. induction l as [|[c dom] l IH] using rev_ind; [done|].
    unfold run_all in *. rewrite foldl_app. cbn. rewrite IH.
    by apply run_on_the_empty_store. }
  split; [apply E|]. split; [by rewrite E|]. split; [by rewrite E|].
  intros best' domain' cs'. by rewrite !E.
Qed.

(** ** The operations that find their resolver *)


(** X23. [remove_component], [delete_component], [get_basic_value],
    [get_element_value] and [get_basic_component_value] resolve the active
    domain: a call with a per-call domain behaves, on a Solution bound to
    any domain, as the call without it on the Solution bound to that
    domain; with neither the call raises [ValueError] and the Solution is
    as it was; and it is the per-call domain that [get_basic_value] looks
    the variable up in. *)
Theorem bound_operations_resolve_the_domain c d b self :
  asks_for_an_unbound_name c = false ->
  snd (run c (Some d) (set_domain b self))
  = snd (run c None (set_domain (Some d) self))
  /\ __variables (fst (run c (Some d) (set_domain b self)))
     = __variables (fst (run c None (set_domain (Some d) self)))
  /\ run c None (set_domain None self)
     = (set_domain None self, Raise ValueError)
  /\ (forall x,
        definitions d !! x = None ->
        snd (get_basic_value x (Some d) (set_domain b self))
        = Raise DefinitionError).
Proof.
  intros Hc.
  destruct (run_bound_external_wins c d b self Hc) as [H1 H2].
  split; [exact H1|]. split; [exact H2|].
  split; [by apply run_bound_without_domain|].
  intros x Hx.
  rewrite (get_basic_value_spec x (Some d) (set_domain b self) d eq_refl).
  by rewrite Hx.
Qed.

Lemma bound_operations_resolve_the_domain_witness :
  snd (run (Get_basic_value "I") (Some example_domain)
         (set_domain (Some capacity_domain) with_I_5))
  = snd (run (Get_basic_value "I") None
           (set_domain (Some example_domain) with_I_5))
  /\ run (Remove_component "VI") None (set_domain None one_integer)
     = (set_domain None one_integer, Raise ValueError)
  /\ snd (get_basic_value "I" (Some capacity_domain)
            (set_domain (Some example_domain) with_I_5))
     = Raise DefinitionError.
Proof.
  split; [|split].
  - exact (proj1 (bound_operations_resolve_the_domain (Get_basic_value "I")
                    example_domain (Some capacity_domain) with_I_5 eq_refl)).
  - exact (proj1 (proj2 (proj2
             (bound_operations_resolve_the_domain (Remove_component "VI")
                example_domain None one_integer eq_refl)))).
  - exact (proj2 (proj2 (proj2
             (bound_operations_resolve_the_domain (Get_basic_value "I")
                capacity_domain (Some example_domain) with_I_5 eq_refl)))
             "I" eq_refl).
Defined.



(** ** The register of [pycvoa/definition.py] *)

Lemma dict_get_Forall {V} (Q : V -> Prop) k (d : pydict V) v :
  Forall (fun kv => Q kv.2) d -> dict_get k d = Some v -> Q v.
Proof.
  induction 1 as [|[k' v'] d Hv _ IH]; cbn; [done|].
  destruct (String.eqb k' k); [by intros [= <-] | done].
Qed.

Lemma Forall_dict_set {V} (Q : V -> Prop) k v (d : pydict V) :
  Forall (fun kv => Q kv.2) d ->
  Q v ->
  Forall (fun kv => Q kv.2) (dict_set k v d).
Proof.
  intros Hd Hv. induction Hd as [|[k' v'] d Hv' Hd IH]; cbn.
  - by constructor.
  - destruct (String.eqb k' k); by constructor.
Qed.

Lemma dict_keys_set_present {V} k (v w : V) d :
  dict_get k d = Some w -> dict_keys (dict_set k v d) = dict_keys d.
Proof. intros H. rewrite dict_keys_set. unfold dict_mem. by rewrite H. Qed.

Lemma dict_get_keys {V} k (d : pydict V) :
  k ∈ dict_keys d <-> is_Some (dict_get k d).
Proof.
  unfold dict_keys. induction d as [|[k' v'] d IH]; cbn.
  - split; [by intros ?%elem_of_nil | by intros [? ?]].
  - rewrite elem_of_cons. destruct (String.eqb_spec k' k) as [->|Hne].
    + split; [by eexists | by left].
    + rewrite <- IH. split; [by intros [->|?] | by right].
Qed.

Section ProblemDefinitionFacts.
Import ProblemDefinition.

Lemma insert_layer_well_formed l e def self self' :
  basic_definition def ->
  well_formed self ->
  insert_layer l e def self = Returns self' ->
  well_formed self'.
Proof.
  intros Hdef Hwf. unfold insert_layer, definition_of.
  destruct (dict_get l self) as [layer|] eqn:Hl; cbn; [|done].
  pose proof (dict_get_Forall _ _ _ _ Hwf Hl) as Hshape.
  destruct Hshape as [? Hb|d Hd|a b s comp Hc]; [by inversion Hb| |done].
  cbn. intros [= <-]. apply Forall_dict_set; [done|].
  apply a_layer_variable. by apply Forall_dict_set.
Qed.

Lemma set_vector_component_well_formed v def self self' :
  component_definition def ->
  well_formed self ->
  set_vector_component v def self = Returns self' ->
  well_formed self'.
Proof.
  intros Hdef Hwf. unfold set_vector_component, definition_of.
  destruct (dict_get v self) as [vector|] eqn:Hv; cbn; [|done].
  pose proof (dict_get_Forall _ _ _ _ Hwf Hv) as Hshape.
  destruct Hshape as [? Hb|d Hd|a b s comp Hc]; [by inversion Hb|done|].
  cbn. intros [= <-]. apply Forall_dict_set; [done|].
  by apply a_vector_variable.
Qed.

Lemma insert_in_vector_layer_component_well_formed v e def self self' :
  basic_definition def ->
  well_formed self ->
  insert_in_vector_layer_component v e def self = Returns self' ->
  well_formed self'.
Proof.
  intros Hdef Hwf. unfold insert_in_vector_layer_component, definition_of.
  destruct (dict_get v self) as [vector|] eqn:Hv; cbn; [|done].
  pose proof (dict_get_Forall _ _ _ _ Hwf Hv) as Hshape.
  destruct Hshape as [? Hb|d Hd|a b s comp Hc]; [by inversion Hb|done|].
  destruct Hc as [|o Ho|d Hd]; [done|by inversion Ho|].
  cbn. intros [= <-]. apply Forall_dict_set; [done|].
  apply a_vector_variable, layer_component. by apply Forall_dict_set.
Qed.

Lemma run_well_formed c self self' :
  well_formed self -> run c self = Returns self' -> well_formed self'.
Proof.
  intros Hwf.
  destruct c; cbn;
    try (intros [= <-]; apply Forall_dict_set; [done|];
         first [ apply a_basic_variable; constructor
               | apply a_layer_variable; constructor
               | apply a_vector_variable; constructor ]).
  - apply insert_layer_well_formed; [constructor | done].
  - apply insert_layer_well_formed; [constructor | done].
  - apply insert_layer_well_formed; [constructor | done].
  - apply set_vector_component_well_formed;
      [apply basic_component; constructor | done].
  - apply set_vector_component_well_formed;
      [apply basic_component; constructor | done].
  - apply set_vector_component_well_formed;
      [apply basic_component; constructor | done].
  - apply set_vector_component_well_formed;
      [apply layer_component; constructor | done].
  - apply insert_in_vector_layer_component_well_formed; [constructor | done].
  - apply insert_in_vector_layer_component_well_formed; [constructor | done].
  - apply insert_in_vector_layer_component_well_formed; [constructor | done].
Qed.

Lemma after_snoc calls c : after (calls ++ [c]) = step (after calls) c.
Proof. unfold after. by rewrite fold_left_app. Qed.

Lemma after_well_formed calls : well_formed (after calls).
Proof.
  induction calls as [|c calls IH] using rev_ind.
  - constructor.
  - rewrite after_snoc. unfold step.
    destruct (run c (after calls)) as [self'|] eqn:Hrun; [|done].
    by eapply run_well_formed.
Qed.

Lemma get_variable_type_well_formed name self :
  well_formed self ->
  match get_variable_type name self with
  | Returns ty => ty ∈ variable_types /\ name ∈ get_variable_list self
  | Raises e => e = KeyError /\ name ∉ get_variable_list self
  end.
Proof.
  intros Hwf. unfold get_variable_type, definition_of, get_variable_list.
  destruct (dict_get name self) as [definition|] eqn:Hn; cbn.
  - pose proof (dict_get_Forall _ _ _ _ Hwf Hn) as Hshape.
    assert (name ∈ dict_keys self) by (apply dict_get_keys; by eexists).
    unfold variable_types.
    destruct Hshape as [? Hb|d Hd|a b s comp Hc]; [inversion Hb| |]; cbn;
      (split; [by repeat constructor | done]).
  - split; [done|]. rewrite dict_get_keys, Hn. by intros [? ?].
Qed.

Lemma insert_layer_needs_a_layer l e def self :
  well_formed self -> needs_a_layer (insert_layer l e def) l e def self.
Proof.
  intros Hwf.
  unfold needs_a_layer, get_variable_type, insert_layer, definition_of.
  destruct (dict_get l self) as [layer|] eqn:Hl; cbn; [|done].
  pose proof (dict_get_Forall _ _ _ _ Hwf Hl) as Hshape.
  destruct Hshape as [? Hb|d Hd|a b s comp Hc]; [by inversion Hb| |done].
  cbn. eexists. split; [done|]. split.
  - unfold get_layer_element_definition, definition_of.
    rewrite dict_get_set_eq. cbv -[dict_get dict_set].
    by rewrite dict_get_set_eq.
  - unfold get_variable_list. by erewrite dict_keys_set_present.
Qed.

Lemma set_vector_component_needs_a_vector v def self :
  well_formed self -> needs_a_vector (set_vector_component v def) v def self.
Proof.
  intros Hwf.
  unfold needs_a_vector, get_variable_type, set_vector_component,
    definition_of.
  destruct (dict_get v self) as [vector|] eqn:Hv; cbn; [|done].
  pose proof (dict_get_Forall _ _ _ _ Hwf Hv) as Hshape.
  destruct Hshape as [? Hb|d Hd|a b s comp Hc]; [by inversion Hb|done|].
  cbn. eexists. split; [done|]. split.
  - unfold get_vector_component_definition, definition_of.
    by rewrite dict_get_set_eq.
  - unfold get_variable_list. by erewrite dict_keys_set_present.
Qed.

Lemma insert_in_component_needs_a_layer_component v e def self :
  well_formed self ->
  needs_a_layer_component (insert_in_vector_layer_component v e def) v e def
    self.
Proof.
  intros Hwf.
  unfold needs_a_layer_component, get_variable_type,
    get_vector_component_type, insert_in_vector_layer_component,
    definition_of.
  destruct (dict_get v self) as [vector|] eqn:Hv; cbn; [|done].
  pose proof (dict_get_Forall _ _ _ _ Hwf Hv) as Hshape.
  destruct Hshape as [? Hb|d Hd|a b s comp Hc]; [by inversion Hb|done|].
  destruct Hc as [|o Ho|d Hd]; [done|by inversion Ho|].
  cbn. eexists. split; [done|]. split.
  - unfold get_vector_layer_element_definition, definition_of.
    rewrite dict_get_set_eq. cbv -[dict_get dict_set].
    by rewrite dict_get_set_eq.
  - unfold get_variable_list. by erewrite dict_keys_set_present.
Qed.

(** X18. Whatever calls built it, the register holds only definitions of
    the five shapes the [register_*] methods write, and [get_variable_type]
    returns one of the five type constants for a registered name and raises
    [KeyError] for any other. *)
Theorem register_holds_well_shaped_definitions calls name :
  well_formed (after calls)
  /\ match get_variable_type name (after calls) with
     | Returns ty =>
         ty ∈ variable_types /\ name ∈ get_variable_list (after calls)
     | Raises e => e = KeyError /\ name ∉ get_variable_list (after calls)
     end.
Proof.
  split; [apply after_well_formed|].
  apply get_variable_type_well_formed, after_well_formed.
Qed.

(** X19. On a register built by any calls, the three [insert_layer_*]
    methods write the element definition, readable back with
    [get_layer_element_definition], exactly when the name is registered as
    LAYER; an unregistered name raises [KeyError] and a name registered
    with another type raises [TypeError], the register unchanged. *)
Theorem insert_layer_needs_a_layer_variable calls l e a b s cs :
  needs_a_layer (insert_layer_integer l e a b s) l e
    (OList [OType INTEGER; OBasic a; OBasic b; OBasic s]) (after calls)
  /\ needs_a_layer (insert_layer_real l e a b s) l e
       (OList [OType REAL; OBasic a; OBasic b; OBasic s]) (after calls)
  /\ needs_a_layer (insert_layer_categorical l e cs) l e
       (OList [OType CATEGORICAL; OList (map OBasic cs)]) (after calls).
Proof.
  pose proof (after_well_formed calls) as Hwf.
  split; [|split]; by apply insert_layer_needs_a_layer.
Qed.

(** X20. On a register built by any calls, the four
    [set_vector_component_to_*] methods replace the whole component
    definition exactly when the name is registered as VECTOR (so
    [set_vector_component_to_layer] starts from a layer without elements);
    an unregistered name raises [KeyError] and a name registered with
    another type raises [IndexError]. *)
Theorem set_vector_component_needs_a_vector_variable calls v a b s cs :
  needs_a_vector (set_vector_component_to_integer v a b s) v
    (OList [OType INTEGER; OBasic a; OBasic b; OBasic s]) (after calls)
  /\ needs_a_vector (set_vector_component_to_real v a b s) v
       (OList [OType REAL; OBasic a; OBasic b; OBasic s]) (after calls)
  /\ needs_a_vector (set_vector_component_to_categorical v cs) v
       (OList [OType CATEGORICAL; OList (map OBasic cs)]) (after calls)
  /\ needs_a_vector (set_vector_component_to_layer v) v
       (OList [OType LAYER; ODict []]) (after calls).
Proof.
  pose proof (after_well_formed calls) as Hwf.
  split; [|split; [|split]]; by apply set_vector_component_needs_a_vector.
Qed.

(** X21. On a register built by any calls, the three
    [insert_*_in_vector_layer_component] methods write the element
    definition exactly when the name is a VECTOR whose component type is
    LAYER; they raise [KeyError] for an unregistered name and for a VECTOR
    whose component type is not set, [IndexError] for a name registered
    with another type, and [TypeError] for a VECTOR of INTEGER, REAL or
    CATEGORICAL components. *)
Theorem insert_in_vector_needs_a_layer_component calls v e a b s cs :
  needs_a_layer_component
    (insert_integer_in_vector_layer_component v e a b s) v e
    (OList [OType INTEGER; OBasic a; OBasic b; OBasic s]) (after calls)
  /\ needs_a_layer_component
       (insert_real_in_vector_layer_component v e a b s) v e
       (OList [OType REAL; OBasic a; OBasic b; OBasic s]) (after calls)
  /\ needs_a_layer_component
       (insert_categorical_in_vector_layer_component v e cs) v e
       (OList [OType CATEGORICAL; OList (map OBasic cs)]) (after calls).
Proof.
  pose proof (after_well_formed calls) as Hwf.
  split; [|split]; by apply insert_in_component_needs_a_layer_component.
Qed.

End ProblemDefinitionFacts.
